(** * storestar: the rating ledger, its HTTP handlers and the admin pages

    A shallow embedding of
    - [server/src/index.ts], [server/src/validators.ts] and the Prisma
      migration (the three relations and their constraints),
    - the two sides of the unresolved merge in [contexts/DataContext.tsx],
    - the filtering, sorting and paging of the admin pages
      ([UserManagement], [StoreManagement]).

    Conventions.  A JavaScript number is a double: a [Q] holds its value,
    and an addition or a division rounds the exact result to the nearest
    double ([Js.double]); integer columns and ratings are [Z].  Timestamps
    are milliseconds since the epoch ([Z]); strings are [string] and case
    folding is the ASCII one.  An [await]ed Prisma call is one atomic
    transition of the database; a handler that rejects (an exception that
    no handler catches) is the outcome [Throws].  The database is the
    SQLite file of the README and of the migration. *)

From Stdlib Require Import List String Ascii ZArith QArith Bool Lia Arith.
From Stdlib Require Import Qround Qabs Qreduction DecimalString Sorted.
From Stdlib Require Qcanon.
From Stdlib Require Import Lqa.
Import ListNotations.
Open Scope string_scope.
Open Scope Z_scope.

(** ** JavaScript values and string primitives *)

Module Js.

(** A JSON value as [express.json()] hands it over; [JUndefined] is a
    missing property, [JOther] an array or an object. *)
Inductive Value :=
| JUndefined
| JNull
| JBool (b : bool)
| JNumber (q : Q)
| JString (s : string)
| JOther.

(** Property access on a parsed body. *)
Fixpoint prop (k : string) (o : list (string * Value)) : Value :=
  match o with
  | [] => JUndefined
  | (k', v) :: o' => if String.eqb k k' then v else prop k o'
  end.

(** [!v] *)
Definition falsy (v : Value) : bool :=
  match v with
  | JUndefined | JNull => true
  | JBool b => negb b
  | JNumber q => Qeq_bool q 0
  | JString s => String.eqb s ""
  | JOther => false
  end.

Definition lower_ascii (c : ascii) : ascii :=
  let n := nat_of_ascii c in
  if ((65 <=? n) && (n <=? 90))%nat then ascii_of_nat (n + 32) else c.

(** [s.toLowerCase()] *)
Fixpoint toLowerCase (s : string) : string :=
  match s with
  | EmptyString => EmptyString
  | String c s' => String (lower_ascii c) (toLowerCase s')
  end.

Fixpoint startsWith (p s : string) : bool :=
  match p, s with
  | EmptyString, _ => true
  | String a p', String b s' => Ascii.eqb a b && startsWith p' s'
  | String _ _, EmptyString => false
  end.

(** [s.includes(t)] *)
Fixpoint includes (s t : string) : bool :=
  startsWith t s ||
  match s with
  | EmptyString => false
  | String _ s' => includes s' t
  end.

Fixpoint drop (n : nat) (s : string) : string :=
  match n, s with
  | O, _ => s
  | S n', String _ s' => drop n' s'
  | S _, EmptyString => EmptyString
  end.

(** [s.replace(pat, rep)] with a string pattern: the first occurrence only. *)
Fixpoint replace (pat rep s : string) : string :=
  if startsWith pat s then rep ++ drop (String.length pat) s
  else match s with
       | EmptyString => EmptyString
       | String c s' => String c (replace pat rep s')
       end.

(** [String(n)] for an integer. *)
Definition String_ (n : Z) : string := NilZero.string_of_int (Z.to_int n).

(** [a.slice(start, end)] with the relative-index rules of the language:
    a negative index counts from the end, and both are clamped. *)
Definition clamp_index (len k : Z) : nat :=
  Z.to_nat (if k <? 0 then Z.max (len + k) 0 else Z.min k len).

Definition slice {A} (l : list A) (start stop : Z) : list A :=
  let len := Z.of_nat (List.length l) in
  let from := clamp_index len start in
  let to := clamp_index len stop in
  firstn (to - from) (skipn from l).

(** *** Numbers

    The doubles are the rationals [m * 2^e] with [|m| < 2^53]; the result
    of an operation is the double nearest to the exact result, the one
    with the even [m] when two are equally near.  The range of the
    exponent is left out: the numbers of this program are integers and
    their quotients by the length of a list, far inside it. *)

(** [p / q] to the nearest integer, halves to the even one ([0 < q]). *)
Definition nearest_even (p q : Z) : Z :=
  let f := p / q in
  match 2 * (p mod q) ?= q with
  | Lt => f
  | Gt => f + 1
  | Eq => if Z.even f then f else f + 1
  end.

(** The [e] with [2^e <= a / b < 2^(e+1)], for positive [a] and [b]. *)
Definition binade (a b : Z) : Z :=
  let e := Z.log2 a - Z.log2 b in
  if (if 0 <=? e then b * 2 ^ e <=? a else b <=? a * 2 ^ (- e)) then e else e - 1.

(** The double nearest to [x], in lowest terms: 53 significant bits. *)
Definition double (x : Q) : Q :=
  let a := Qnum (Qred x) in
  let b := Zpos (Qden (Qred x)) in
  if a =? 0 then 0%Q
  else
    let s := 52 - binade (Z.abs a) b in
    if 0 <=? s
    then Qred (inject_Z (nearest_even (a * 2 ^ s) b) / inject_Z (2 ^ s))
    else inject_Z (nearest_even a (b * 2 ^ (- s)) * 2 ^ (- s)).

(** [x + y] and [x / y] on numbers. *)
Definition add (x y : Q) : Q := double (x + y).
Definition div (x y : Q) : Q := double (x / y).

(** [o || 0] on a nullable number. *)
Definition or_zero (o : option Q) : Q :=
  match o with
  | Some q => if Qeq_bool q 0 then 0%Q else q
  | None => 0%Q
  end.

(** The comparison a [sort] callback makes with [<] and [>]: both operands
    are strings, or both are numbers. *)
Inductive Key :=
| KStr (s : string)
| KNum (q : Q).

Definition key_lt (a b : Key) : bool :=
  match a, b with
  | KStr s, KStr t => String.ltb s t
  | KNum p, KNum q => negb (Qle_bool q p)
  | _, _ => false
  end.

(** [Array.prototype.sort] is stable; [cmp a b > 0] moves [a] behind [b]. *)
Fixpoint insert_sorted {A} (cmp : A -> A -> Z) (x : A) (l : list A) : list A :=
  match l with
  | [] => [x]
  | y :: l' => if 0 <? cmp x y then y :: insert_sorted cmp x l' else x :: l
  end.

Fixpoint sort {A} (cmp : A -> A -> Z) (l : list A) : list A :=
  match l with
  | [] => []
  | x :: l' => insert_sorted cmp x (sort cmp l')
  end.

Inductive SortOrder := asc | desc.

(** The callback of the admin pages:
    [if (a < b) return order === "asc" ? -1 : 1;
     if (a > b) return order === "asc" ? 1 : -1; return 0]. *)
Definition compare_keys (order : SortOrder) (a b : Key) : Z :=
  if key_lt a b then match order with asc => -1 | desc => 1 end
  else if key_lt b a then match order with asc => 1 | desc => -1 end
  else 0.

End Js.

(** ** The data model (migration [20251209155413_init]) *)

Inductive Role := admin | normal_user | store_owner.

Definition role_eqb (a b : Role) : bool :=
  match a, b with
  | admin, admin | normal_user, normal_user | store_owner, store_owner => true
  | _, _ => false
  end.

(** The column holds the role as text. *)
Definition role_name (r : Role) : string :=
  match r with
  | admin => "admin"
  | normal_user => "normal_user"
  | store_owner => "store_owner"
  end.

(** The JSON shape of a user (no password), as the client holds it. *)
Record User := mkUser {
  user_id : string;
  user_name : string;
  user_email : string;
  user_address : string;
  user_role : Role;
  user_createdAt : Z }.

Record Store := mkStore {
  store_id : string;
  store_name : string;
  store_address : string;
  store_ownerId : string;
  store_createdAt : Z }.

Record Rating := mkRating {
  rating_id : string;
  rating_userId : string;
  rating_storeId : string;
  rating_value : Z;
  rating_createdAt : Z }.

(** [{ ...r, rating: v }] *)
Definition with_rating (r : Rating) (v : Z) : Rating :=
  mkRating (rating_id r) (rating_userId r) (rating_storeId r) v (rating_createdAt r).

(** The identity claim inside a token. *)
Record AuthPayload := mkPayload {
  payload_id : string;
  payload_role : Role }.

(** What the server takes from its libraries: [jwt.verify] under the
    configured secret ([None] when it throws), the id default of the Prisma
    models (the n-th generated id) and [bcrypt.hash]. *)
Class Externals := {
  verifyToken : string -> option AuthPayload;
  cuid : nat -> string;
  bcrypt_hash : string -> string -> string }.

(** ** The storage layer: Prisma over the three relations *)

Module Prisma.

(** A row of ["User"]. *)
Record UserRow := mkUserRow {
  row_user : User;
  row_password : string }.

Record Db := mkDb {
  users : list UserRow;
  stores : list Store;
  ratings : list Rating;
  idSeed : nat }.

(** The errors a query rejects with. *)
Inductive Error :=
| P2002 (target : list string)   (* unique constraint failed *)
| P2003                          (* foreign key constraint failed *)
| P2025                          (* record to update not found *)
| ClientValidation               (* argument of the wrong type *)
| BcryptIllegalArguments.

Definition set_ratings (db : Db) (rs : list Rating) : Db :=
  mkDb (users db) (stores db) rs (idSeed db).

Definition has_user (db : Db) (u : string) : bool :=
  existsb (fun r => String.eqb (user_id (row_user r)) u) (users db).

Definition has_store (db : Db) (s : string) : bool :=
  existsb (fun r => String.eqb (store_id r) s) (stores db).

Definition pair_eqb (u s : string) (r : Rating) : bool :=
  String.eqb (rating_userId r) u && String.eqb (rating_storeId r) s.

(** [prisma.rating.findUnique({ where: { userId_storeId: { userId, storeId } } })] *)
Definition rating_findUnique (db : Db) (u s : string) : option Rating :=
  find (pair_eqb u s) (ratings db).

(** The column ["rating" INTEGER]: of a number that is not an integer
    Prisma keeps the integer part, so that no number is refused. *)
Definition as_Int (q : Q) : option Z :=
  Some (Z.quot (Qnum q) (Zpos (Qden q))).

(** [prisma.rating.update({ where: { id }, data: { rating } })] *)
Definition rating_update (db : Db) (id : string) (v : Q) : Error + (Db * Rating) :=
  match as_Int v with
  | None => inl ClientValidation
  | Some n =>
    match find (fun r => String.eqb (rating_id r) id) (ratings db) with
    | None => inl P2025
    | Some r =>
      let r' := with_rating r n in
      inr (set_ratings db
             (map (fun x => if String.eqb (rating_id x) id then with_rating x n else x)
                  (ratings db)),
           r')
    end
  end.

(** [prisma.rating.create({ data: { userId, storeId, rating } })]: the id
    comes from the generator, [createdAt] from [CURRENT_TIMESTAMP]; the
    primary key and the unique index ["Rating_userId_storeId_key"] are
    checked on insertion, the two foreign keys at the end of the statement. *)
Definition rating_create `{Externals} (now : Z) (db : Db) (u s : string) (v : Q)
  : Error + (Db * Rating) :=
  match as_Int v with
  | None => inl ClientValidation
  | Some n =>
    let id := cuid (idSeed db) in
    if existsb (fun r => String.eqb (rating_id r) id) (ratings db)
    then inl (P2002 ["id"])
    else if existsb (pair_eqb u s) (ratings db)
    then inl (P2002 ["userId"; "storeId"])
    else if negb (has_user db u && has_store db s)
    then inl P2003
    else
      let r := mkRating id u s n now in
      inr (mkDb (users db) (stores db) (ratings db ++ [r]) (S (idSeed db)), r)
  end.

(** [prisma.rating.aggregate({ where: { storeId }, _avg: { rating: true } })]:
    [null] over no rows; otherwise [AVG], the sum of the column as a
    double divided by the number of rows. *)
Definition rating_avg (db : Db) (s : string) : option Q :=
  match filter (fun r => String.eqb (rating_storeId r) s) (ratings db) with
  | [] => None
  | rs => Some (Js.div (fold_left (fun acc r => Js.add acc (inject_Z (rating_value r)))
                                  rs 0%Q)
                       (inject_Z (Z.of_nat (List.length rs))))
  end.

(** [_count: { rating: true }] *)
Definition rating_count (db : Db) (s : string) : nat :=
  List.length (filter (fun r => String.eqb (rating_storeId r) s) (ratings db)).

(** [prisma.user.update({ where: { id }, data: { password } })] *)
Definition user_update_password (db : Db) (id pwd : string) : Error + Db :=
  if has_user db id
  then inr (mkDb (map (fun r => if String.eqb (user_id (row_user r)) id
                                then mkUserRow (row_user r) pwd else r)
                      (users db))
                 (stores db) (ratings db) (idSeed db))
  else inl P2025.

(** The connector of the datasource.  The migration is written in the
    SQLite dialect and the README names [file:./dev.db]. *)
Inductive Provider := sqlite | postgresql.

Definition provider : Provider := sqlite.

(** The argument [mode] of a string filter exists for PostgreSQL (and
    MongoDB) only: the client of another connector refuses a query that
    carries it. *)
Definition supports_mode (p : Provider) : bool :=
  match p with
  | postgresql => true
  | sqlite => false
  end.

(** [{ contains: q, mode: "insensitive" }], where the connector has it. *)
Definition contains_insensitive (field q : string) : bool :=
  Js.includes (Js.toLowerCase field) (Js.toLowerCase q).

(** [prisma.user.findUnique({ where: { email } })] *)
Definition user_findUnique_email (db : Db) (email : string) : option UserRow :=
  find (fun r => String.eqb (user_email (row_user r)) email) (users db).

(** [prisma.user.create({ data })]: the primary key and the unique index
    ["User_email_key"] are checked on insertion. *)
Definition user_create `{Externals} (now : Z) (db : Db)
  (name email address password : string) (role : Role) : Error + (Db * UserRow) :=
  let id := cuid (idSeed db) in
  if existsb (fun r => String.eqb (user_id (row_user r)) id) (users db)
  then inl (P2002 ["id"])
  else if existsb (fun r => String.eqb (user_email (row_user r)) email) (users db)
  then inl (P2002 ["email"])
  else
    let r := mkUserRow (mkUser id name email address role now) password in
    inr (mkDb (users db ++ [r]) (stores db) (ratings db) (S (idSeed db)), r).

(** [prisma.store.create({ data })]: ["Store_ownerId_fkey"] must hold. *)
Definition store_create `{Externals} (now : Z) (db : Db)
  (name address ownerId : string) : Error + (Db * Store) :=
  let id := cuid (idSeed db) in
  if existsb (fun s => String.eqb (store_id s) id) (stores db)
  then inl (P2002 ["id"])
  else if negb (has_user db ownerId)
  then inl P2003
  else
    let s := mkStore id name address ownerId now in
    inr (mkDb (users db) (stores db ++ [s]) (ratings db) (S (idSeed db)), s).

(** [prisma.store.findMany({ where: { ownerId } })] *)
Definition store_findMany_owner (db : Db) (ownerId : string) : list Store :=
  filter (fun s => String.eqb (store_ownerId s) ownerId) (stores db).

(** [prisma.rating.findMany({ where: { storeId }, include: { user: true } })]:
    each rating with the whole row of its user. *)
Definition rating_findMany_store (db : Db) (storeId : string)
  : list (Rating * option UserRow) :=
  map (fun r => (r, find (fun u => String.eqb (user_id (row_user u)) (rating_userId r))
                         (users db)))
      (filter (fun r => String.eqb (rating_storeId r) storeId) (ratings db)).

End Prisma.

(** ** The HTTP handlers of [server/src/index.ts] *)

Module Server.
Import Prisma.

Record Request := mkRequest {
  authorization : option string;          (* [req.headers.authorization] *)
  params_id : string;                     (* [req.params.id] *)
  query : list (string * string);         (* the string-valued part of [req.query] *)
  body : list (string * Js.Value) }.      (* [req.body] *)

(** A store as the listings return it: [{ ...s, owner, averageRating, totalRatings }]. *)
Record StoreJson := mkStoreJson {
  sj_store : Store;
  sj_owner : option User;
  sj_averageRating : Q;
  sj_totalRatings : option nat }.

Inductive Body :=
| ErrorBody (error : string)
| SuccessBody
| RatingBody (r : Rating)
| UsersBody (us : list User)
| StoresBody (ss : list StoreJson).

(** What a request ends in: [res.status(n).json(b)], or a rejected handler. *)
Inductive Response :=
| Respond (status : nat) (b : Body)
| Throws (e : Error).

Definition unauthorized : Response := Respond 401 (ErrorBody "unauthorized").
Definition forbidden : Response := Respond 403 (ErrorBody "forbidden").
Definition invalid : Response := Respond 400 (ErrorBody "invalid").

(** [typeof req.query.k === "string" ? req.query.k : undefined] *)
Fixpoint query_string (k : string) (q : list (string * string)) : option string :=
  match q with
  | [] => None
  | (k', v) :: q' => if String.eqb k k' then Some v else query_string k q'
  end.

Definition authMiddleware `{Externals} (req : Request) : Response + AuthPayload :=
  match authorization req with
  | None => inl unauthorized
  | Some header =>
    if String.eqb header "" then inl unauthorized
    else match verifyToken (Js.replace "Bearer " "" header) with
         | Some payload => inr payload
         | None => inl unauthorized
         end
  end.

(** [ratingSchema.safeParse(req.body)]:
    [z.object({ rating: z.number().min(1).max(5) })]. *)
Definition ratingSchema_safeParse (b : list (string * Js.Value)) : option Q :=
  match Js.prop "rating" b with
  | Js.JNumber q => if Qle_bool 1 q && Qle_bool q 5 then Some q else None
  | _ => None
  end.

(** *** [PATCH /users/:id/password] *)
Definition updatePassword `{Externals} (salt : string) (req : Request) (db : Db)
  : Response * Db :=
  match authMiddleware req with
  | inl r => (r, db)
  | inr _ =>
    let newPassword := Js.prop "newPassword" (body req) in
    if Js.falsy newPassword then (invalid, db)
    else match newPassword with
         | Js.JString p =>
           match user_update_password db (params_id req) (bcrypt_hash p salt) with
           | inl e => (Throws e, db)
           | inr db' => (Respond 200 SuccessBody, db')
           end
         | _ => (Throws BcryptIllegalArguments, db)
         end
  end.

(** *** [POST /stores/:id/ratings]

    The handler reaches the database twice, and other requests may run
    between the two [await]s; [Pending] is the handler parked between them. *)
Inductive Pending :=
| Finished (r : Response)
| AwaitWrite (me : AuthPayload) (storeId : string) (rating : Q) (existing : option Rating).

(** Up to and including [await prisma.rating.findUnique(...)]. *)
Definition submitRating_lookup `{Externals} (req : Request) (db : Db) : Pending :=
  match authMiddleware req with
  | inl r => Finished r
  | inr me =>
    match ratingSchema_safeParse (body req) with
    | None => Finished invalid
    | Some rating =>
      AwaitWrite me (params_id req) rating
                 (rating_findUnique db (payload_id me) (params_id req))
    end
  end.

(** The [update] or the [create], and the response. *)
Definition submitRating_write `{Externals} (now : Z) (p : Pending) (db : Db)
  : Response * Db :=
  match p with
  | Finished r => (r, db)
  | AwaitWrite me storeId rating (Some existing) =>
    match rating_update db (rating_id existing) rating with
    | inl e => (Throws e, db)
    | inr (db', updated) => (Respond 200 (RatingBody updated), db')
    end
  | AwaitWrite me storeId rating None =>
    match rating_create now db (payload_id me) storeId rating with
    | inl e => (Throws e, db)
    | inr (db', created) => (Respond 200 (RatingBody created), db')
    end
  end.

(** One request served with nothing in between. *)
Definition submitRating `{Externals} (now : Z) (req : Request) (db : Db)
  : Response * Db :=
  submitRating_write now (submitRating_lookup req db) db.

(** *** The listings *)

(** [orderBy: { [sortField]: sortOrder }]: the column must exist and the
    direction must be one of the two, or the query is refused. *)
Definition user_column (f : string) : option (UserRow -> Js.Key) :=
  if String.eqb f "id" then Some (fun r => Js.KStr (user_id (row_user r)))
  else if String.eqb f "name" then Some (fun r => Js.KStr (user_name (row_user r)))
  else if String.eqb f "email" then Some (fun r => Js.KStr (user_email (row_user r)))
  else if String.eqb f "address" then Some (fun r => Js.KStr (user_address (row_user r)))
  else if String.eqb f "role" then Some (fun r => Js.KStr (role_name (user_role (row_user r))))
  else if String.eqb f "password" then Some (fun r => Js.KStr (row_password r))
  else if String.eqb f "createdAt"
       then Some (fun r => Js.KNum (inject_Z (user_createdAt (row_user r))))
  else None.

Definition store_column (f : string) : option (Store -> Js.Key) :=
  if String.eqb f "id" then Some (fun s => Js.KStr (store_id s))
  else if String.eqb f "name" then Some (fun s => Js.KStr (store_name s))
  else if String.eqb f "address" then Some (fun s => Js.KStr (store_address s))
  else if String.eqb f "ownerId" then Some (fun s => Js.KStr (store_ownerId s))
  else if String.eqb f "createdAt" then Some (fun s => Js.KNum (inject_Z (store_createdAt s)))
  else None.

Definition sort_direction (o : string) : option Js.SortOrder :=
  if String.eqb o "asc" then Some Js.asc
  else if String.eqb o "desc" then Some Js.desc
  else None.

Definition orderBy {A} (key : A -> Js.Key) (o : Js.SortOrder) (l : list A) : list A :=
  Js.sort (fun a b => Js.compare_keys o (key a) (key b)) l.

Definition or_default (o : option string) (d : string) : string :=
  match o with Some s => s | None => d end.

(** [if (q) where.OR = [...]]: no clause for a missing or empty [q]. *)
Definition where_OR (q : option string) (fields : list string) : bool :=
  match q with
  | None => true
  | Some q => if String.eqb q "" then true
              else existsb (fun f => contains_insensitive f q) fields
  end.

(** Does the query carry the clause, and with it the argument [mode]? *)
Definition has_search (q : option string) : bool :=
  match q with
  | None => false
  | Some q => negb (String.eqb q "")
  end.

(** [findMany] with such a [where] is refused by the client of a
    connector without [mode]. *)
Definition search_refused (q : option string) : bool :=
  has_search q && negb (supports_mode provider).

(** [if (role && role !== "all") where.role = role] *)
Definition where_role (role : option string) (r : UserRow) : bool :=
  match role with
  | None => true
  | Some role =>
    if String.eqb role "" || String.eqb role "all" then true
    else String.eqb (role_name (user_role (row_user r))) role
  end.

(** [GET /admin/users] *)
Definition admin_listUsers `{Externals} (req : Request) (db : Db) : Response :=
  match authMiddleware req with
  | inl r => r
  | inr me =>
    if negb (role_eqb (payload_role me) admin) then forbidden
    else
      let q := query_string "q" (query req) in
      let role := query_string "role" (query req) in
      let sortField := or_default (query_string "sortField" (query req)) "createdAt" in
      let sortOrder := or_default (query_string "sortOrder" (query req)) "desc" in
      let where_ (r : UserRow) :=
        where_role role r &&
        where_OR q [user_name (row_user r); user_email (row_user r);
                    user_address (row_user r)] in
      match user_column sortField, sort_direction sortOrder with
      | Some key, Some o =>
        if search_refused q then Throws ClientValidation
        else
          Respond 200 (UsersBody (map row_user (orderBy key o (filter where_ (users db)))))
      | _, _ => Throws ClientValidation
      end
  end.

(** The [where] of both store listings: name and address. *)
Definition where_store (q : option string) (s : Store) : bool :=
  where_OR q [store_name s; store_address s].

(** [avg._avg.rating || 0] *)
Definition averageRating (db : Db) (storeId : string) : Q :=
  Js.or_zero (rating_avg db storeId).

(** [include: { owner: true }] *)
Definition owner_of (db : Db) (s : Store) : option User :=
  option_map row_user
    (find (fun r => String.eqb (user_id (row_user r)) (store_ownerId s)) (users db)).

(** [GET /admin/stores] *)
Definition admin_listStores `{Externals} (req : Request) (db : Db) : Response :=
  match authMiddleware req with
  | inl r => r
  | inr me =>
    if negb (role_eqb (payload_role me) admin) then forbidden
    else
      let q := query_string "q" (query req) in
      let sortField := or_default (query_string "sortField" (query req)) "createdAt" in
      let sortOrder := or_default (query_string "sortOrder" (query req)) "desc" in
      match store_column sortField, sort_direction sortOrder with
      | Some key, Some o =>
        if search_refused q then Throws ClientValidation
        else
          Respond 200 (StoresBody
            (map (fun s => mkStoreJson s (owner_of db s) (averageRating db (store_id s))
                                       (Some (rating_count db (store_id s))))
                 (orderBy key o (filter (where_store q) (stores db)))))
      | _, _ => Throws ClientValidation
      end
  end.

(** [GET /stores] *)
Definition listStores `{Externals} (req : Request) (db : Db) : Response :=
  match authMiddleware req with
  | inl r => r
  | inr _ =>
    let q := query_string "q" (query req) in
    if search_refused q then Throws ClientValidation
    else
      Respond 200 (StoresBody
        (map (fun s => mkStoreJson s None (averageRating db (store_id s)) None)
             (filter (where_store q) (stores db))))
  end.

End Server.

(** ** Two rating requests on the event loop

    Node runs one handler at a time and switches only at an [await]: a
    schedule says which of the two requests makes its next move, and when. *)

Module EventLoop.
Import Prisma Server.

Inductive Task :=
| Waiting (req : Request)
| Parked (p : Pending)
| Settled (r : Response).






Definition settled (t : Task) : bool :=
  match t with Settled _ => true | _ => false end.




End EventLoop.

(** ** The client state: [contexts/DataContext.tsx] *)

Module DataContext.

(** [Omit<Rating, "id" | "createdAt">] *)
Record NewRating := mkNewRating {
  new_userId : string;
  new_storeId : string;
  new_rating : Z }.

(** The mock data the provider starts from; [t0] is the load time. *)
Definition initialUsers (t0 : Z) : list User :=
  [ mkUser "1" "System Administrator Account" "admin@storerating.com"
           "123 Admin Street, Tech City, TC 12345" admin t0;
    mkUser "2" "Store Owner Demo Account" "owner@storerating.com"
           "456 Business Avenue, Commerce Town, CT 67890" store_owner t0;
    mkUser "3" "Normal User Demo Account" "user@storerating.com"
           "789 Customer Lane, Shopville, SV 11223" normal_user t0;
    mkUser "4" "Another Normal User Account" "user2@storerating.com"
           "321 Buyer Road, Purchase City, PC 44556" normal_user t0 ].

Definition initialStores (t0 : Z) : list Store :=
  [ mkStore "1" "Premium Electronics Store"
            "100 Tech Boulevard, Digital City, DC 10001" "2" t0;
    mkStore "2" "Organic Foods Marketplace"
            "200 Green Avenue, Healthy Town, HT 20002" "2" t0 ].

Definition initialRatings (t0 : Z) : list Rating :=
  [ mkRating "1" "3" "1" 4 t0;
    mkRating "2" "4" "1" 5 t0;
    mkRating "3" "3" "2" 3 t0 ].

(** The part both sides of the merge share. *)

Definition getUserRating (ratings : list Rating) (userId storeId : string)
  : option Rating :=
  find (fun r => String.eqb (rating_userId r) userId
                 && String.eqb (rating_storeId r) storeId) ratings.

Definition getStoresByOwner (stores : list Store) (ownerId : string) : list Store :=
  filter (fun s => String.eqb (store_ownerId s) ownerId) stores.

Definition getStoreAverageRating (ratings : list Rating) (storeId : string) : Q :=
  let storeRatings := filter (fun r => String.eqb (rating_storeId r) storeId) ratings in
  if Nat.eqb (List.length storeRatings) 0 then 0%Q
  else
    let sum := fold_left (fun acc r => Js.add acc (inject_Z (rating_value r)))
                         storeRatings 0%Q in
    Js.div sum (inject_Z (Z.of_nat (List.length storeRatings))).

(** [prev.map((r) => (r.id === ratingId ? { ...r, rating: newRating } : r))] *)
Definition rewrite_rating (ratingId : string) (newRating : Z) (prev : list Rating)
  : list Rating :=
  map (fun r => if String.eqb (rating_id r) ratingId
                then with_rating r newRating else r) prev.

(** [{ ...rating, id: String(Date.now()), createdAt: new Date().toISOString() }] *)
Definition local_rating (now : Z) (rating : NewRating) : Rating :=
  mkRating (Js.String_ now) (new_userId rating) (new_storeId rating)
           (new_rating rating) now.

(** The side of the merge named by the commit 96691ba: local state only. *)
Module Theirs.

Definition addRating (now : Z) (rating : NewRating) (ratings : list Rating)
  : list Rating :=
  ratings ++ [local_rating now rating].

Definition updateRating (ratingId : string) (newRating : Z) (ratings : list Rating)
  : list Rating :=
  rewrite_rating ratingId newRating ratings.

End Theirs.

(** The HEAD side: the rating goes to the server first. *)
Module Head.
Import Prisma Server.

Record World := mkWorld {
  ratings : list Rating;     (* the [ratings] state of the provider *)
  server : Db }.

(** [res.ok] *)
Definition ok (status : nat) : bool := ((200 <=? status) && (status <=? 299))%nat.

(** [addRating]; the flag is false when the [fetch] is never answered
    (the handler rejected), so that nothing after the [await] runs. *)
Definition addRating `{Externals} (now : Z) (token : option string)
  (rating : NewRating) (w : World) : bool * World :=
  let fallback (db : Db) :=
    (true, mkWorld (ratings w ++ [local_rating now rating]) db) in
  match token with
  | None => fallback (server w)
  | Some tok =>
    if String.eqb tok "" then fallback (server w)
    else
      let req := mkRequest (Some ("Bearer " ++ tok)) (new_storeId rating) []
                           [("rating", Js.JNumber (inject_Z (new_rating rating)))] in
      match submitRating now req (server w) with
      | (Respond status b, db) =>
        if ok status
        then match b with
             | RatingBody created => (true, mkWorld (ratings w ++ [created]) db)
             | _ => (true, mkWorld (ratings w) db)
             end
        else fallback db
      | (Throws _, db) => (false, mkWorld (ratings w) db)
      end
  end.

Definition updateRating `{Externals} (now : Z) (token : option string)
  (ratingId : string) (newRating : Z) (w : World) : World :=
  let rewrite (w : World) :=
    mkWorld (rewrite_rating ratingId newRating (ratings w)) (server w) in
  match find (fun r => String.eqb (rating_id r) ratingId) (ratings w) with
  | Some existing =>
    let (answered, w') :=
      addRating now token
                (mkNewRating (rating_userId existing) (rating_storeId existing) newRating)
                w in
    if answered then rewrite w' else w'
  | None => rewrite w
  end.

End Head.

(** How many rows the list holds for a pair. *)
Definition rows_for (userId storeId : string) (ratings : list Rating) : nat :=
  List.length (filter (fun r => String.eqb (rating_userId r) userId
                                && String.eqb (rating_storeId r) storeId) ratings).

End DataContext.

(** ** The admin pages *)

(** [pages/admin/UserManagement.tsx] *)
Module UserManagement.

Inductive SortField := name | email | role | createdAt.

Definition itemsPerPage : Z := 10.

(** [a[sortField]] *)
Definition field (f : SortField) (u : User) : Js.Key :=
  match f with
  | name => Js.KStr (user_name u)
  | email => Js.KStr (user_email u)
  | role => Js.KStr (role_name (user_role u))
  | createdAt => Js.KNum (inject_Z (user_createdAt u))
  end.

Definition matches (term : string) (user : User) : bool :=
  Js.includes (Js.toLowerCase (user_name user)) term
  || Js.includes (Js.toLowerCase (user_email user)) term
  || Js.includes (Js.toLowerCase (user_address user)) term.

Definition filteredUsers (users : list User) (searchTerm roleFilter : string)
  (sortField : SortField) (sortOrder : Js.SortOrder) : list User :=
  let result := users in
  let result :=
    if String.eqb searchTerm "" then result
    else filter (matches (Js.toLowerCase searchTerm)) result in
  let result :=
    if String.eqb roleFilter "all" then result
    else filter (fun user => String.eqb (role_name (user_role user)) roleFilter) result in
  Js.sort (fun a b => Js.compare_keys sortOrder (field sortField a) (field sortField b))
          result.


(** [{filteredUsers.length}], the count the page shows under the table. *)
Definition matchCount (filteredUsers : list User) : nat :=
  List.length filteredUsers.

(** [Math.ceil(filteredUsers.length / itemsPerPage)] *)
Definition totalPages (filteredUsers : list User) : Z :=
  Qceiling (Js.div (inject_Z (Z.of_nat (List.length filteredUsers))) (inject_Z itemsPerPage)).

End UserManagement.

(** [pages/admin/StoreManagement.tsx] *)
Module StoreManagement.

Inductive SortField := name | address | rating | createdAt.

Definition itemsPerPage : Z := 10.

(** [{ ...store, owner, averageRating }] *)
Record StoreWithRating := mkStoreWithRating {
  store : Store;
  owner : option User;
  averageRating : Q }.

Definition storesWithRatings (stores : list Store) (users : list User)
  (ratings : list Rating) : list StoreWithRating :=
  map (fun s => mkStoreWithRating s
                  (find (fun u => String.eqb (user_id u) (store_ownerId s)) users)
                  (DataContext.getStoreAverageRating ratings (store_id s)))
      stores.

Definition field (f : SortField) (s : StoreWithRating) : Js.Key :=
  match f with
  | name => Js.KStr (store_name (store s))
  | address => Js.KStr (store_address (store s))
  | rating => Js.KNum (averageRating s)
  | createdAt => Js.KNum (inject_Z (store_createdAt (store s)))
  end.

(** [store.owner?.email.toLowerCase().includes(term)] is [undefined], hence
    false, for a store without a resolved owner. *)
Definition matches (term : string) (s : StoreWithRating) : bool :=
  Js.includes (Js.toLowerCase (store_name (store s))) term
  || Js.includes (Js.toLowerCase (store_address (store s))) term
  || match owner s with
     | Some o => Js.includes (Js.toLowerCase (user_email o)) term
     | None => false
     end.

Definition filteredStores (storesWithRatings : list StoreWithRating)
  (searchTerm : string) (sortField : SortField) (sortOrder : Js.SortOrder)
  : list StoreWithRating :=
  let result := storesWithRatings in
  let result :=
    if String.eqb searchTerm "" then result
    else filter (matches (Js.toLowerCase searchTerm)) result in
  Js.sort (fun a b => Js.compare_keys sortOrder (field sortField a) (field sortField b))
          result.


(** [{filteredStores.length}] *)
Definition matchCount (filteredStores : list StoreWithRating) : nat :=
  List.length filteredStores.

Definition totalPages (filteredStores : list StoreWithRating) : Z :=
  Qceiling (Js.div (inject_Z (Z.of_nat (List.length filteredStores))) (inject_Z itemsPerPage)).

End StoreManagement.

(** ** A concrete deployment: the demo accounts as database rows *)

Module Demo.
Import Prisma Server.

(** Four session tokens, one per demo account; ids are numbered; the hash
    keeps salt and password apart. *)
#[export] Instance externals : Externals := {|
  verifyToken tok :=
    if String.eqb tok "t-admin" then Some (mkPayload "1" admin)
    else if String.eqb tok "t-owner" then Some (mkPayload "2" store_owner)
    else if String.eqb tok "t-user" then Some (mkPayload "3" normal_user)
    else if String.eqb tok "t-user2" then Some (mkPayload "4" normal_user)
    else None;
  cuid n := "c" ++ Js.String_ (Z.of_nat n);
  bcrypt_hash p salt := salt ++ "$" ++ p |}.

Definition db : Db :=
  mkDb (map (fun u => mkUserRow u "$") (DataContext.initialUsers 0))
       (DataContext.initialStores 0)
       (DataContext.initialRatings 0)
       0.

(** The same accounts and stores before anyone has rated. *)
Definition empty_db : Db :=
  mkDb (users db) (stores db) [] 0.

Definition rate (tok storeId : string) (v : Q) : Request :=
  mkRequest (Some ("Bearer " ++ tok)) storeId [] [("rating", Js.JNumber v)].


End Demo.

(** ** The schemas of [server/src/validators.ts] *)

(** What the account handlers take from their libraries: the email test
    of zod, [jwt.sign] at a given time and [bcrypt.compare]. *)
Class AuthLib := {
  isEmail : string -> bool;
  signToken : AuthPayload -> Z -> string;
  bcrypt_compare : string -> string -> bool }.

Module Validators.

(** [/[A-Z]/] *)
Definition upper (c : ascii) : bool :=
  let n := nat_of_ascii c in ((65 <=? n) && (n <=? 90))%nat.

(** The characters of the class in the second pattern of the password:
    ! @ # $ % ^ & * ( ) , . ? (quote) : { } | < > *)
Definition special_codes : list nat :=
  [33; 64; 35; 36; 37; 94; 38; 42; 40; 41; 44; 46; 63; 34; 58; 123; 125; 124; 60; 62]%nat.

Definition special (c : ascii) : bool :=
  existsb (Nat.eqb (nat_of_ascii c)) special_codes.

(** [re.test(s)] for a pattern that is one character class. *)
Definition test (class : ascii -> bool) (s : string) : bool :=
  existsb class (list_ascii_of_string s).

Definition passwordSchema (s : string) : bool :=
  ((8 <=? String.length s) && (String.length s <=? 16))%nat
  && test upper s && test special s.

Definition nameSchema (s : string) : bool :=
  ((20 <=? String.length s) && (String.length s <=? 60))%nat.

Definition addressSchema (s : string) : bool :=
  (String.length s <=? 400)%nat.

(** [z.string()] on a property of the body. *)
Definition string_prop (k : string) (b : list (string * Js.Value)) : option string :=
  match Js.prop k b with
  | Js.JString s => Some s
  | _ => None
  end.

Record SignupData := mkSignupData {
  su_name : string;
  su_email : string;
  su_address : string;
  su_password : string }.

Definition signupSchema_safeParse `{AuthLib} (b : list (string * Js.Value))
  : option SignupData :=
  match string_prop "name" b, string_prop "email" b,
        string_prop "address" b, string_prop "password" b with
  | Some n, Some e, Some a, Some p =>
    if nameSchema n && isEmail e && addressSchema a && passwordSchema p
    then Some (mkSignupData n e a p) else None
  | _, _, _, _ => None
  end.

(** [loginSchema]: a well-formed email and a password of at least one
    character. *)
Definition loginSchema_safeParse `{AuthLib} (b : list (string * Js.Value))
  : option (string * string) :=
  match string_prop "email" b, string_prop "password" b with
  | Some e, Some p =>
    if isEmail e && (1 <=? String.length p)%nat then Some (e, p) else None
  | _, _ => None
  end.

(** [z.enum(["admin", "normal_user", "store_owner"])] *)
Definition role_enum (s : string) : option Role :=
  if String.eqb s "admin" then Some admin
  else if String.eqb s "normal_user" then Some normal_user
  else if String.eqb s "store_owner" then Some store_owner
  else None.

Definition addUserSchema_safeParse `{AuthLib} (b : list (string * Js.Value))
  : option (SignupData * Role) :=
  match signupSchema_safeParse b, string_prop "role" b with
  | Some d, Some r =>
    match role_enum r with
    | Some role => Some (d, role)
    | None => None
    end
  | _, _ => None
  end.

Record StoreData := mkStoreData {
  sd_name : string;
  sd_address : string;
  sd_ownerId : string }.

Definition addStoreSchema_safeParse (b : list (string * Js.Value)) : option StoreData :=
  match string_prop "name" b, string_prop "address" b, string_prop "ownerId" b with
  | Some n, Some a, Some o =>
    if nameSchema n && addressSchema a && (1 <=? String.length o)%nat
    then Some (mkStoreData n a o) else None
  | _, _, _ => None
  end.

End Validators.

(** ** The other handlers of [server/src/index.ts] *)

Module Accounts.
Import Prisma Server Validators.

(** [res.json(a)], [res.status(n).json({ error })], or a rejected handler. *)
Inductive Outcome (A : Type) :=
| Json (a : A)
| Refuse (status : nat) (error : string)
| Reject (e : Error).
Arguments Json {A} a.
Arguments Refuse {A} status error.
Arguments Reject {A} e.

(** [{ token, user: { id, name, email, address, role, createdAt } }] *)
Record Session := mkSession {
  token : string;
  session_user : User }.

(** [hashPassword], with the salt [bcrypt.genSalt] drew. *)
Definition hashPassword `{Externals} (password salt : string) : string :=
  bcrypt_hash password salt.

(** [POST /auth/signup] *)
Definition signup `{Externals} `{AuthLib} (now : Z) (salt : string)
  (req : Request) (db : Db) : Outcome Session * Db :=
  match signupSchema_safeParse (body req) with
  | None => (Refuse 400 "invalid", db)
  | Some d =>
    match user_findUnique_email db (su_email d) with
    | Some _ => (Refuse 409 "email_exists", db)
    | None =>
      let pwd := hashPassword (su_password d) salt in
      match user_create now db (su_name d) (su_email d) (su_address d) pwd normal_user with
      | inl e => (Reject e, db)
      | inr (db', user) =>
        let u := row_user user in
        (Json (mkSession (signToken (mkPayload (user_id u) (user_role u)) now) u), db')
      end
    end
  end.

(** [POST /auth/login] *)
Definition login `{AuthLib} (now : Z) (req : Request) (db : Db) : Outcome Session :=
  match loginSchema_safeParse (body req) with
  | None => Refuse 400 "invalid"
  | Some (email, password) =>
    match user_findUnique_email db email with
    | None => Refuse 401 "invalid_credentials"
    | Some user =>
      if bcrypt_compare password (row_password user)
      then let u := row_user user in
           Json (mkSession (signToken (mkPayload (user_id u) (user_role u)) now) u)
      else Refuse 401 "invalid_credentials"
    end
  end.

Record Stats := mkStats {
  totalUsers : nat;
  totalStores : nat;
  totalRatings : nat }.

(** [GET /admin/stats] *)
Definition admin_stats `{Externals} (req : Request) (db : Db) : Outcome Stats :=
  match authMiddleware req with
  | inl _ => Refuse 401 "unauthorized"
  | inr me =>
    if negb (role_eqb (payload_role me) admin) then Refuse 403 "forbidden"
    else Json (mkStats (List.length (users db)) (List.length (stores db))
                       (List.length (ratings db)))
  end.

(** [POST /admin/users] *)
Definition admin_addUser `{Externals} `{AuthLib} (now : Z) (salt : string)
  (req : Request) (db : Db) : Outcome User * Db :=
  match authMiddleware req with
  | inl _ => (Refuse 401 "unauthorized", db)
  | inr me =>
    if negb (role_eqb (payload_role me) admin) then (Refuse 403 "forbidden", db)
    else
      match addUserSchema_safeParse (body req) with
      | None => (Refuse 400 "invalid", db)
      | Some (d, role) =>
        match user_findUnique_email db (su_email d) with
        | Some _ => (Refuse 409 "email_exists", db)
        | None =>
          let pwd := hashPassword (su_password d) salt in
          match user_create now db (su_name d) (su_email d) (su_address d) pwd role with
          | inl e => (Reject e, db)
          | inr (db', user) => (Json (row_user user), db')
          end
        end
      end
  end.

(** [POST /admin/stores] *)
Definition admin_addStore `{Externals} (now : Z) (req : Request) (db : Db)
  : Outcome Store * Db :=
  match authMiddleware req with
  | inl _ => (Refuse 401 "unauthorized", db)
  | inr me =>
    if negb (role_eqb (payload_role me) admin) then (Refuse 403 "forbidden", db)
    else
      match addStoreSchema_safeParse (body req) with
      | None => (Refuse 400 "invalid", db)
      | Some d =>
        match store_create now db (sd_name d) (sd_address d) (sd_ownerId d) with
        | inl e => (Reject e, db)
        | inr (db', store) => (Json store, db')
        end
      end
  end.

(** [{ ...s, ratings, averageRating, totalRatings }] *)
Record OwnerStore := mkOwnerStore {
  os_store : Store;
  os_ratings : list (Rating * option UserRow);
  os_averageRating : Q;
  os_totalRatings : nat }.

(** [GET /owner/stores] *)
Definition owner_stores `{Externals} (req : Request) (db : Db)
  : Outcome (list OwnerStore) :=
  match authMiddleware req with
  | inl _ => Refuse 401 "unauthorized"
  | inr me =>
    if negb (role_eqb (payload_role me) store_owner) then Refuse 403 "forbidden"
    else
      Json (map (fun s =>
                   let ratings := rating_findMany_store db (store_id s) in
                   mkOwnerStore s ratings
                                (Js.or_zero (rating_avg db (store_id s)))
                                (List.length ratings))
                (store_findMany_owner db (payload_id me)))
  end.

End Accounts.

(** ** The mock session of [contexts/AuthContext.tsx] *)

Module AuthContext.

Record Account := mkAccount {
  account : User;
  password : string }.

(** The module-level array, as the module builds it when it is loaded. *)
Definition mockUsers (t0 : Z) : list Account :=
  [ mkAccount (mkUser "1" "System Administrator Account" "admin@storerating.com"
                      "123 Admin Street, Tech City, TC 12345" admin t0) "Admin@123";
    mkAccount (mkUser "2" "Store Owner Demo Account" "owner@storerating.com"
                      "456 Business Avenue, Commerce Town, CT 67890" store_owner t0)
              "Owner@123";
    mkAccount (mkUser "3" "Normal User Demo Account" "user@storerating.com"
                      "789 Customer Lane, Shopville, SV 11223" normal_user t0)
              "User@1234" ].

Record State := mkState {
  accounts : list Account;        (* the array [mockUsers] *)
  user : option User;             (* the [user] state of the provider *)
  currentUser : option User }.    (* [localStorage] under ["currentUser"] *)

Inductive Result :=
| Success
| Failure (error : string).

Definition login (email pwd : string) (st : State) : Result * State :=
  match find (fun u => String.eqb (user_email (account u)) email
                       && String.eqb (password u) pwd) (accounts st) with
  | Some foundUser =>
    (Success, mkState (accounts st) (Some (account foundUser)) (Some (account foundUser)))
  | None => (Failure "Invalid email or password", st)
  end.

Definition signup (now : Z) (name email address pwd : string) (st : State)
  : Result * State :=
  match find (fun u => String.eqb (user_email (account u)) email) (accounts st) with
  | Some _ => (Failure "Email already registered", st)
  | None =>
    let newUser := mkUser (Js.String_ (Z.of_nat (List.length (accounts st)) + 1))
                          name email address normal_user now in
    (Success, mkState (accounts st ++ [mkAccount newUser pwd]) (Some newUser) (Some newUser))
  end.

Definition logout (st : State) : State :=
  mkState (accounts st) None None.

(** [mockUsers[userIndex].password = newPassword] at the first index whose
    id matches. *)
Fixpoint set_password (id newPassword : string) (l : list Account) : list Account :=
  match l with
  | [] => []
  | u :: l' => if String.eqb (user_id (account u)) id
               then mkAccount (account u) newPassword :: l'
               else u :: set_password id newPassword l'
  end.

Definition updatePassword (newPassword : string) (st : State) : Result * State :=
  match user st with
  | None => (Failure "Not authenticated", st)
  | Some u =>
    (Success, mkState (set_password (user_id u) newPassword (accounts st))
                      (user st) (currentUser st))
  end.

(** A page load: the module is evaluated again and the effect of the
    provider restores the session from [localStorage]. *)
Definition load (t0 : Z) (st : State) : State :=
  mkState (mockUsers t0) (currentUser st) (currentUser st).

End AuthContext.

(** ** The store list of a normal user: [pages/user/UserStoreList.tsx] *)

Module UserStoreList.

(** [{ ...store, owner, averageRating, userRating }] *)
Record StoreWithData := mkStoreWithData {
  store : Store;
  owner : option User;
  averageRating : Q;
  userRating : option Rating }.

Definition storesWithData (stores : list Store) (users : list User)
  (ratings : list Rating) (user : option User) : list StoreWithData :=
  map (fun s =>
         mkStoreWithData s
           (find (fun u => String.eqb (user_id u) (store_ownerId s)) users)
           (DataContext.getStoreAverageRating ratings (store_id s))
           (match user with
            | Some u => DataContext.getUserRating ratings (user_id u) (store_id s)
            | None => None
            end))
      stores.

Definition filteredStores (storesWithData : list StoreWithData) (searchTerm : string)
  : list StoreWithData :=
  if String.eqb searchTerm "" then storesWithData
  else
    let term := Js.toLowerCase searchTerm in
    filter (fun s => Js.includes (Js.toLowerCase (store_name (store s))) term
                     || Js.includes (Js.toLowerCase (store_address (store s))) term)
           storesWithData.

(** [handleSubmitRating], over the rating list of the provider. *)
Definition handleSubmitRating (now : Z) (user : option User)
  (selectedStoreId : option string) (pendingRating : Z) (ratings : list Rating)
  : list Rating :=
  match user, selectedStoreId with
  | Some u, Some sid =>
    if String.eqb sid "" || Z.eqb pendingRating 0 then ratings
    else
      match DataContext.getUserRating ratings (user_id u) sid with
      | Some existingRating =>
        DataContext.Theirs.updateRating (rating_id existingRating) pendingRating ratings
      | None =>
        DataContext.Theirs.addRating now (DataContext.mkNewRating (user_id u) sid pendingRating)
                                     ratings
      end
  | _, _ => ratings
  end.

End UserStoreList.

(** ** [components/ui/star-rating.tsx] *)

Module StarRating.

(** The indices of [Array.from({ length: maxRating })]. *)
Definition stars (maxRating : nat) : list nat := seq 0 maxRating.

(** [handleClick]: what [onRatingChange] is called with, if at all. *)
Definition handleClick (interactive : bool) (index : nat) : option Z :=
  if interactive then Some (Z.of_nat index + 1) else None.

(** [Math.round]: the nearest integer, halves upwards. *)
Definition round (x : Q) : Z := Qfloor (x + (1 # 2)).

(** [index < Math.round(rating)] *)
Definition filled (rating : Q) (index : nat) : bool :=
  Z.of_nat index <? round rating.

End StarRating.

(** ** The dashboards *)

(** [pages/admin/AdminDashboard.tsx] *)
Module AdminDashboard.

(** [l.slice(-5).reverse()] *)
Definition recent {A} (l : list A) : list A :=
  rev (Js.slice l (-5) (Z.of_nat (List.length l))).

Definition recentUsers (users : list User) : list User := recent users.
Definition recentRatings (ratings : list Rating) : list Rating := recent ratings.

End AdminDashboard.

(** [pages/owner/OwnerDashboard.tsx] *)
Module OwnerDashboard.

(** [getStoreRatings] of the provider: the ratings of a store, each with
    its user. *)
Definition getStoreRatings (ratings : list Rating) (users : list User)
  (storeId : string) : list (Rating * option User) :=
  map (fun r => (r, find (fun u => String.eqb (user_id u) (rating_userId r)) users))
      (filter (fun r => String.eqb (rating_storeId r) storeId) ratings).

Record StoreData := mkStoreData {
  store : Store;
  ratings : list (Rating * option User);
  averageRating : Q;
  totalRatings : nat }.

Definition ownerStores (stores : list Store) (user : option User) : list Store :=
  match user with
  | None => []
  | Some u => DataContext.getStoresByOwner stores (user_id u)
  end.

Definition storeData (ownerStores : list Store) (held : list Rating)
  (users : list User) : list StoreData :=
  map (fun s =>
         let rs := getStoreRatings held users (store_id s) in
         mkStoreData s rs (DataContext.getStoreAverageRating held (store_id s))
                     (List.length rs))
      ownerStores.

(** [storeData.reduce((acc, store) => acc + store.totalRatings, 0)] *)
Definition sumRatings (data : list StoreData) : nat :=
  fold_left (fun acc s => (acc + totalRatings s)%nat) data 0%nat.

Definition overallAverage (data : list StoreData) : Q :=
  if (0 <? List.length data)%nat
  then Js.div (fold_left (fun acc s => Js.add acc (averageRating s)) data 0%Q)
              (inject_Z (Z.of_nat (List.length data)))
  else 0%Q.

End OwnerDashboard.

(** ** The demo accounts for the account handlers *)

Module DemoAuth.

(** An address has a sign between two non-empty parts; a token spells the
    identity out; a password matches the hash made from it. *)
#[export] Instance lib : AuthLib := {|
  isEmail e := Js.includes e "@" && negb (Js.startsWith "@" e)
               && negb (String.eqb (Js.drop (String.length e - 1) e) "@");
  signToken p now := role_name (payload_role p) ++ ":" ++ payload_id p;
  bcrypt_compare p hash := Js.includes hash ("$" ++ p)
                           && String.eqb (Js.drop (String.length hash - String.length p) hash) p |}.

Fixpoint before_colon (s : string) : string :=
  match s with
  | EmptyString => EmptyString
  | String c s' => if Ascii.eqb c ":" then EmptyString else String c (before_colon s')
  end.

Fixpoint after_colon (s : string) : option string :=
  match s with
  | EmptyString => None
  | String c s' => if Ascii.eqb c ":" then Some s' else after_colon s'
  end.

(** The verifier that reads those tokens back; ids and hashes as in the
    demo of the ledger. *)
Definition externals : Externals := {|
  verifyToken tok :=
    match Validators.role_enum (before_colon tok), after_colon tok with
    | Some r, Some id => Some (mkPayload id r)
    | _, _ => None
    end;
  cuid := @cuid Demo.externals;
  bcrypt_hash := @bcrypt_hash Demo.externals |}.

(** The body of a sign-up that also asks for a role. *)
Definition newcomer : Server.Request :=
  Server.mkRequest None "" []
    [("name", Js.JString "A Perfectly Ordinary Name");
     ("email", Js.JString "new@example.com");
     ("address", Js.JString "1 Main Street");
     ("password", Js.JString "Secret#12");
     ("role", Js.JString "admin")].

(** The same form sent by the admin, for a store owner. *)
Definition by_admin (tok : string) (body : list (string * Js.Value)) : Server.Request :=
  Server.mkRequest (Some ("Bearer " ++ tok)) "" [] body.

End DemoAuth.

(** ** The vocabulary of the statements *)

Module Ledger.
Import Prisma Server.

(** The rating rows of a (user, store) pair. *)
Definition rows (db : Db) (u s : string) : list Rating :=
  filter (pair_eqb u s) (ratings db).

(** ["Rating_userId_storeId_key"]: no pair has two rows. *)
Definition unique_index (db : Db) : Prop :=
  forall u s, (List.length (rows db u s) <= 1)%nat.

(** The primary key of ["Rating"]. *)
Definition primary_key (db : Db) : Prop :=
  NoDup (map rating_id (ratings db)).

(** ["Rating_userId_fkey"] and ["Rating_storeId_fkey"]. *)
Definition foreign_keys (db : Db) : Prop :=
  forall r, In r (ratings db) ->
    has_user db (rating_userId r) = true /\ has_store db (rating_storeId r) = true.

(** [old] and [new] are the same account, and [new] carries the password
    [pwd] exactly when the account is [target]. *)
Definition password_set (target pwd : string) (old new : UserRow) : Prop :=
  row_user new = row_user old
  /\ (user_id (row_user old) = target -> row_password new = pwd)
  /\ (user_id (row_user old) <> target -> new = old).

(** The generator has not produced an id that is already a key. *)
Definition fresh_id `{Externals} (db : Db) : Prop :=
  ~ In (cuid (idSeed db)) (map rating_id (ratings db)).

(** [req] carries a token of user [u] with role [role] and asks to rate
    store [s] with the integer [v]. *)
Definition rates `{Externals} (req : Request) (u : string) (role : Role)
  (s : string) (v : Z) : Prop :=
  authMiddleware req = inr (mkPayload u role)
  /\ params_id req = s
  /\ Js.prop "rating" (body req) = Js.JNumber (inject_Z v).






(** The arithmetic mean of a list of integers. *)
Definition mean (l : list Z) : Q :=
  Qdiv (inject_Z (fold_right Z.add 0 l)) (inject_Z (Z.of_nat (List.length l))).

(** The integers add up without rounding: their magnitudes sum to less
    than 2^53, so that every partial sum is a double. *)
Definition exact_sum (l : list Z) : Prop :=
  fold_right (fun v acc => Z.abs v + acc) 0 l < 2 ^ 53.

(** The values of the ratings of a store. *)
Definition values_of (storeId : string) (held : list Rating) : list Z :=
  map rating_value (filter (fun r => String.eqb (rating_storeId r) storeId) held).

(** The request names no search term: [q] is missing or empty. *)
Definition no_search (req : Request) : Prop :=
  query_string "q" (query req) = None \/ query_string "q" (query req) = Some "".

(** [t] occurs in [s]. *)
Definition substring (t s : string) : Prop :=
  exists pre post, s = pre ++ t ++ post.

(** [t] occurs in [s] when case is ignored. *)
Definition substring_ci (t s : string) : Prop :=
  substring (Js.toLowerCase t) (Js.toLowerCase s).

End Ledger.

(** The vocabulary of the statements about accounts and pages. *)
Module Facts.
Import Prisma Server.

(** ["User_email_key"]: no two accounts share an email. *)
Definition unique_emails (db : Db) : Prop :=
  NoDup (map (fun r => user_email (row_user r)) (users db)).

(** The next generated id is not yet the key of a user, or of a store. *)
Definition fresh_user_id `{Externals} (db : Db) : Prop :=
  ~ In (cuid (idSeed db)) (map (fun r => user_id (row_user r)) (users db)).

Definition fresh_store_id `{Externals} (db : Db) : Prop :=
  ~ In (cuid (idSeed db)) (map store_id (stores db)).

(** The identity claim of an account. *)
Definition payload_of (u : User) : AuthPayload :=
  mkPayload (user_id u) (user_role u).

(** A request that carries [tok] the way the client sends it. *)
Definition with_token (tok : string) (req : Request) : Request :=
  mkRequest (Some ("Bearer " ++ tok)) (params_id req) (query req) (body req).

(** The key by which a page compares two of its rows. *)
Definition ordered (order : Js.SortOrder) (a b : Js.Key) : Prop :=
  match order with
  | Js.asc => Js.key_lt b a = false
  | Js.desc => Js.key_lt a b = false
  end.

(** No pair of the list has more than one rating. *)
Definition one_rating_each (held : list Rating) : Prop :=
  forall u s, (DataContext.rows_for u s held <= 1)%nat.

(** The unique emails of the mock accounts. *)
Definition mock_emails_unique (l : list AuthContext.Account) : Prop :=
  NoDup (map (fun a => user_email (AuthContext.account a)) l).

End Facts.

(** * Properties *)

Import Prisma Server Ledger.

(** ** Numbers *)

Lemma nearest_even_cases (p q : Z) :
  0 < q ->
  let f := p / q in
  (Js.nearest_even p q = f /\ 2 * (p mod q) <= q)
  \/ (Js.nearest_even p q = f + 1 /\ q <= 2 * (p mod q)).
Proof.
  intros Hq f. unfold Js.nearest_even. fold f.
  destruct (2 * (p mod q) ?= q) eqn:E.
  - apply Z.compare_eq in E. destruct (Z.even f); [left|right]; split; lia.
  - rewrite Z.compare_lt_iff in E. left; split; lia.
  - rewrite Z.compare_gt_iff in E. right; split; lia.
Qed.

Lemma nearest_even_ge (p q j : Z) :
  0 < q -> j * q <= p -> j <= Js.nearest_even p q.
Proof.
  intros Hq Hj.
  assert (Hf : j <= p / q) by (apply Z.div_le_lower_bound; lia).
  destruct (nearest_even_cases p q Hq) as [[-> _]|[-> _]]; lia.
Qed.

Lemma nearest_even_le (p q j : Z) :
  0 < q -> p <= j * q -> Js.nearest_even p q <= j.
Proof.
  intros Hq Hj.
  pose proof (Z.div_mod p q ltac:(lia)) as Hdm.
  pose proof (Z.mod_pos_bound p q Hq) as Hm.
  destruct (nearest_even_cases p q Hq) as [[-> _]|[-> Hr]].
  - apply Z.div_le_upper_bound; lia.
  - assert (p / q < j); [|lia].
    apply Z.div_lt_upper_bound; [lia|].
    assert (Hne : p <> q * j); [|lia].
    intros E. assert (Hd : p mod q = q * (j - p / q)) by lia.
    destruct (Z_le_gt_dec (j - p / q) 0); nia.
Qed.

Lemma nearest_even_error (p q : Z) :
  0 < q -> 2 * Z.abs (Js.nearest_even p q * q - p) <= q.
Proof.
  intros Hq.
  pose proof (Z.div_mod p q ltac:(lia)) as Hdm.
  pose proof (Z.mod_pos_bound p q Hq) as Hm.
  destruct (nearest_even_cases p q Hq) as [[-> Hr]|[-> Hr]]; nia.
Qed.

Lemma binade_lower (a b : Z) :
  0 < a -> 0 < b ->
  (0 <= Js.binade a b -> b * 2 ^ Js.binade a b <= a)
  /\ (Js.binade a b < 0 -> b <= a * 2 ^ (- Js.binade a b)).
Proof.
  intros Ha Hb. unfold Js.binade.
  set (e := Z.log2 a - Z.log2 b).
  pose proof (Z.log2_spec a Ha) as [La _].
  pose proof (Z.log2_spec b Hb) as [_ Lb].
  pose proof (Z.log2_nonneg a). pose proof (Z.log2_nonneg b).
  destruct (0 <=? e) eqn:E0.
  - apply Z.leb_le in E0.
    destruct (b * 2 ^ e <=? a) eqn:T.
    + apply Z.leb_le in T. split; [auto|lia].
    + split.
      * intros He.
        assert (Hp : 2 ^ Z.log2 a = 2 ^ (e - 1) * 2 ^ Z.succ (Z.log2 b)).
        { rewrite <- Z.pow_add_r by lia. f_equal. lia. }
        assert (0 < 2 ^ (e - 1)) by (apply Z.pow_pos_nonneg; lia).
        nia.
      * intros He. replace (- (e - 1)) with 1 by lia.
        replace (Z.log2 a) with (Z.log2 b) in La by lia.
        rewrite Z.pow_succ_r in Lb by lia. lia.
  - apply Z.leb_gt in E0.
    destruct (b <=? a * 2 ^ (- e)) eqn:T.
    + apply Z.leb_le in T. split; [lia|auto].
    + split; [lia|]. intros _.
      replace (- (e - 1)) with (Z.succ (Z.log2 b) - Z.log2 a) by lia.
      assert (Hp : 2 ^ Z.succ (Z.log2 b)
                   = 2 ^ (Z.succ (Z.log2 b) - Z.log2 a) * 2 ^ Z.log2 a).
      { rewrite <- Z.pow_add_r by lia. f_equal. lia. }
      assert (0 < 2 ^ (Z.succ (Z.log2 b) - Z.log2 a)) by (apply Z.pow_pos_nonneg; lia).
      nia.
Qed.

Lemma Qle_int_div (k a b : Z) :
  0 < b -> (inject_Z k <= inject_Z a / inject_Z b)%Q <-> k * b <= a.
Proof.
  intros Hb. destruct b as [|b|b]; try lia.
  rewrite <- Qmake_Qdiv. unfold Qle. simpl. lia.
Qed.

Lemma Qle_div_int (k a b : Z) :
  0 < b -> (inject_Z a / inject_Z b <= inject_Z k)%Q <-> a <= k * b.
Proof.
  intros Hb. destruct b as [|b|b]; try lia.
  rewrite <- Qmake_Qdiv. unfold Qle. simpl. lia.
Qed.

Lemma Qred_num_den (x : Q) :
  (x == inject_Z (Qnum (Qred x)) / inject_Z (Zpos (Qden (Qred x))))%Q.
Proof. rewrite <- Qmake_Qdiv. destruct (Qred x) eqn:E. simpl. rewrite <- E. symmetry. apply Qred_correct. Qed.

(** What [Js.double] computes, in integers: [x] is [a/b]; the result is
    [m / 2^s] below 2^53 and [m * 2^t] from there on. *)
Lemma double_shape (x : Q) :
  exists a b : Z,
    0 < b /\ (x == inject_Z a / inject_Z b)%Q
    /\ ((a = 0 /\ Js.double x = 0%Q)
        \/ (a <> 0 /\ exists s, 0 <= s /\ s = 52 - Js.binade (Z.abs a) b
              /\ (Js.double x == inject_Z (Js.nearest_even (a * 2 ^ s) b) / inject_Z (2 ^ s))%Q)
        \/ (a <> 0 /\ exists t, 0 < t /\ 52 + t = Js.binade (Z.abs a) b
              /\ Js.double x = inject_Z (Js.nearest_even a (b * 2 ^ t) * 2 ^ t))).
Proof.
  exists (Qnum (Qred x)), (Zpos (Qden (Qred x))).
  split; [lia|]. split; [apply Qred_num_den|].
  unfold Js.double.
  destruct (Z.eqb_spec (Qnum (Qred x)) 0) as [E|E]; [left; auto|right].
  set (s := 52 - Js.binade _ _).
  destruct (Z.leb_spec 0 s) as [Hs|Hs].
  - left. split; [exact E|]. exists s. split; [exact Hs|]. split; [reflexivity|].
    apply Qred_correct.
  - right. split; [exact E|]. exists (- s). split; [lia|]. split; [unfold s; lia|].
    reflexivity.
Qed.

Lemma pow2_pos (n : Z) : 0 <= n -> 0 < 2 ^ n.
Proof. intros. apply Z.pow_pos_nonneg; lia. Qed.

Lemma double_ge_int (x : Q) (k : Z) :
  Z.abs k < 2 ^ 53 -> (inject_Z k <= x)%Q -> (inject_Z k <= Js.double x)%Q.
Proof.
  intros Hk Hx.
  destruct (double_shape x) as (a & b & Hb & Ex & Hcase).
  rewrite Ex in Hx. apply (proj1 (Qle_int_div k a b Hb)) in Hx.
  destruct Hcase as [[-> E]|[(Ha & s & Hs & _ & E)|(Ha & t & Ht & He & E)]]; rewrite E.
  - change 0%Q with (inject_Z 0). rewrite <- Zle_Qle. nia.
  - pose proof (pow2_pos s Hs). apply Qle_int_div; [assumption|].
    apply nearest_even_ge; [exact Hb|]. nia.
  - rewrite <- Zle_Qle.
    pose proof (pow2_pos t ltac:(lia)) as Pt.
    assert (P2 : 2 <= 2 ^ t).
    { change 2 with (2 ^ 1) at 1. apply Z.pow_le_mono_r; lia. }
    destruct (binade_lower (Z.abs a) b ltac:(lia) Hb) as [Hlow _].
    rewrite <- He in Hlow. specialize (Hlow ltac:(lia)).
    rewrite Z.pow_add_r in Hlow by lia.
    destruct (Z_lt_le_dec 0 a) as [Hpos|Hneg].
    + assert (2 ^ 52 <= Js.nearest_even a (b * 2 ^ t)).
      { apply nearest_even_ge; [nia|]. rewrite Z.abs_eq in Hlow by lia. nia. }
      change (2 ^ 53) with (2 ^ 52 * 2) in Hk. nia.
    + exfalso. rewrite Z.abs_neq in Hlow by lia.
      change (2 ^ 53) with (2 ^ 52 * 2) in Hk.
      assert (b * (2 ^ 52 * 2) <= b * (2 ^ 52 * 2 ^ t)) by nia.
      assert (k * b <= - (b * (2 ^ 52 * 2))) by lia.
      nia.
Qed.

Lemma double_le_int (x : Q) (k : Z) :
  Z.abs k < 2 ^ 53 -> (x <= inject_Z k)%Q -> (Js.double x <= inject_Z k)%Q.
Proof.
  intros Hk Hx.
  destruct (double_shape x) as (a & b & Hb & Ex & Hcase).
  rewrite Ex in Hx. apply (proj1 (Qle_div_int k a b Hb)) in Hx.
  destruct Hcase as [[-> E]|[(Ha & s & Hs & _ & E)|(Ha & t & Ht & He & E)]]; rewrite E.
  - change 0%Q with (inject_Z 0). rewrite <- Zle_Qle. nia.
  - pose proof (pow2_pos s Hs). apply Qle_div_int; [assumption|].
    apply nearest_even_le; [exact Hb|]. nia.
  - rewrite <- Zle_Qle.
    pose proof (pow2_pos t ltac:(lia)) as Pt.
    assert (P2 : 2 <= 2 ^ t).
    { change 2 with (2 ^ 1) at 1. apply Z.pow_le_mono_r; lia. }
    destruct (binade_lower (Z.abs a) b ltac:(lia) Hb) as [Hlow _].
    rewrite <- He in Hlow. specialize (Hlow ltac:(lia)).
    rewrite Z.pow_add_r in Hlow by lia.
    destruct (Z_lt_le_dec a 0) as [Hneg|Hpos].
    + assert (Js.nearest_even a (b * 2 ^ t) <= - 2 ^ 52).
      { apply nearest_even_le; [nia|]. rewrite Z.abs_neq in Hlow by lia. nia. }
      change (2 ^ 53) with (2 ^ 52 * 2) in Hk. nia.
    + exfalso. rewrite Z.abs_eq in Hlow by lia.
      change (2 ^ 53) with (2 ^ 52 * 2) in Hk.
      assert (b * (2 ^ 52 * 2) <= b * (2 ^ 52 * 2 ^ t)) by nia.
      nia.
Qed.

Lemma double_proper (x y : Q) : (x == y)%Q -> Js.double x = Js.double y.
Proof. intros E. unfold Js.double. now rewrite (Qred_complete x y E). Qed.

Lemma Qred_inject_Z (k : Z) : Qred (inject_Z k) = inject_Z k.
Proof.
  apply Qcanon.Qred_iff. simpl. apply Z.gcd_1_r.
Qed.

Lemma double_reduced (x : Q) : Qred (Js.double x) = Js.double x.
Proof.
  unfold Js.double. destruct (_ =? 0); [reflexivity|].
  destruct (0 <=? _); [apply Qcanon.Qred_involutive|apply Qred_inject_Z].
Qed.

Lemma double_int (k : Z) : Z.abs k < 2 ^ 53 -> Js.double (inject_Z k) = inject_Z k.
Proof.
  intros Hk.
  transitivity (Qred (Js.double (inject_Z k))); [symmetry; apply double_reduced|].
  transitivity (Qred (inject_Z k)); [|apply Qred_inject_Z].
  apply Qred_complete.
  apply Qle_antisym.
  - apply double_le_int; [exact Hk|apply Qle_refl].
  - apply double_ge_int; [exact Hk|apply Qle_refl].
Qed.

Lemma Qabs_diff_div (m d a b K : Z) :
  0 < d -> 0 < b -> 0 <= K ->
  Z.abs (m * b - a * d) * K <= Z.abs a * d ->
  (Qabs (inject_Z m / inject_Z d - inject_Z a / inject_Z b) * inject_Z K
   <= Qabs (inject_Z a / inject_Z b))%Q.
Proof.
  intros Hd Hb HK H.
  destruct d as [|d|d]; try lia. destruct b as [|b|b]; try lia.
  rewrite <- !Qmake_Qdiv.
  unfold Qle, Qabs, Qminus, Qplus, Qopp, Qmult, inject_Z. cbn [Qnum Qden].
  rewrite ?Pos2Z.inj_mul.
  replace (m * Z.pos b + - a * Z.pos d) with (m * Z.pos b - a * Z.pos d) by lia.
  set (D := Z.abs (m * Z.pos b - a * Z.pos d)) in *.
  assert (0 <= D) by apply Z.abs_nonneg.
  assert (0 <= Z.abs a) by apply Z.abs_nonneg.
  nia.
Qed.

Lemma double_error (x : Q) :
  (Qabs (Js.double x - x) * inject_Z (2 ^ 53) <= Qabs x)%Q.
Proof.
  destruct (double_shape x) as (a & b & Hb & Ex & Hcase).
  destruct Hcase as [[-> E]|[(Ha & s & Hs & He & E)|(Ha & t & Ht & He & E)]].
  - rewrite E, Ex. unfold Qdiv. rewrite Qmult_0_l. vm_compute. discriminate.
  - destruct (binade_lower (Z.abs a) b ltac:(lia) Hb) as [Hlow Hlow'].
    rewrite E, Ex. pose proof (pow2_pos s Hs) as Ps.
    apply Qabs_diff_div; [assumption|assumption|lia|].
    pose proof (nearest_even_error (a * 2 ^ s) b Hb) as Herr.
    set (D := Z.abs (Js.nearest_even (a * 2 ^ s) b * b - a * 2 ^ s)) in *.
    change (2 ^ 53) with (2 * 2 ^ 52).
    destruct (Z_le_gt_dec 0 (Js.binade (Z.abs a) b)) as [Hpos|Hneg].
    + specialize (Hlow Hpos).
      assert (P : 2 ^ 52 = 2 ^ Js.binade (Z.abs a) b * 2 ^ s).
      { rewrite <- Z.pow_add_r by lia. f_equal. lia. }
      pose proof (pow2_pos _ Hpos) as Pe. rewrite P.
      set (E2 := 2 ^ Js.binade (Z.abs a) b) in *. set (S2 := 2 ^ s) in *.
      assert (2 * D * (E2 * S2) <= b * (E2 * S2))
        by (apply Z.mul_le_mono_nonneg_r; nia).
      assert (b * E2 * S2 <= Z.abs a * S2)
        by (apply Z.mul_le_mono_nonneg_r; lia).
      lia.
    + specialize (Hlow' ltac:(lia)).
      assert (P : 2 ^ s = 2 ^ 52 * 2 ^ (- Js.binade (Z.abs a) b)).
      { rewrite <- Z.pow_add_r by lia. f_equal. lia. }
      pose proof (pow2_pos (- Js.binade (Z.abs a) b) ltac:(lia)) as Pe. rewrite P.
      set (E2 := 2 ^ (- Js.binade (Z.abs a) b)) in *.
      assert (2 * D * 2 ^ 52 <= b * 2 ^ 52)
        by (apply Z.mul_le_mono_nonneg_r; lia).
      assert (b * 2 ^ 52 <= Z.abs a * E2 * 2 ^ 52)
        by (apply Z.mul_le_mono_nonneg_r; lia).
      lia.
  - destruct (binade_lower (Z.abs a) b ltac:(lia) Hb) as [Hlow _].
    rewrite E, Ex. pose proof (pow2_pos t ltac:(lia)) as Pt.
    assert (Ei : (inject_Z (Js.nearest_even a (b * 2 ^ t) * 2 ^ t)
                  == inject_Z (Js.nearest_even a (b * 2 ^ t) * 2 ^ t) / inject_Z 1)%Q)
      by (unfold Qdiv; change (/ inject_Z 1)%Q with 1%Q; ring).
    rewrite Ei.
    apply Qabs_diff_div; [lia|assumption|lia|].
    pose proof (nearest_even_error a (b * 2 ^ t) ltac:(nia)) as Herr.
    specialize (Hlow ltac:(lia)). rewrite <- He, Z.pow_add_r in Hlow by lia.
    replace (Js.nearest_even a (b * 2 ^ t) * 2 ^ t * b - a * 1)
      with (Js.nearest_even a (b * 2 ^ t) * (b * 2 ^ t) - a) by ring.
    set (D := Z.abs (Js.nearest_even a (b * 2 ^ t) * (b * 2 ^ t) - a)) in *.
    set (T2 := 2 ^ t) in *.
    change (2 ^ 53) with (2 * 2 ^ 52).
    assert (2 * D * 2 ^ 52 <= b * T2 * 2 ^ 52)
      by (apply Z.mul_le_mono_nonneg_r; lia).
    lia.
Qed.

Lemma exact_sum_nonneg (l : list Z) : 0 <= fold_right (fun v acc => Z.abs v + acc) 0 l.
Proof. induction l as [|v l IH]; simpl; lia. Qed.

Lemma sum_abs_le (l : list Z) :
  Z.abs (fold_right Z.add 0 l) <= fold_right (fun v acc => Z.abs v + acc) 0 l.
Proof. induction l as [|v l IH]; simpl; lia. Qed.

(** A sum that stays below 2^53 is added up without rounding. *)
Lemma add_exact {A} (f : A -> Z) (l : list A) (k : Z) :
  Z.abs k + fold_right (fun v acc => Z.abs v + acc) 0 (map f l) < 2 ^ 53 ->
  fold_left (fun acc r => Js.add acc (inject_Z (f r))) l (inject_Z k)
  = inject_Z (k + fold_right Z.add 0 (map f l)).
Proof.
  revert k. induction l as [|r l IH]; intros k Hk; simpl in *.
  - now rewrite Z.add_0_r.
  - pose proof (exact_sum_nonneg (map f l)).
    unfold Js.add at 2.
    rewrite (double_proper _ (inject_Z (k + f r))) by (now rewrite inject_Z_plus).
    rewrite double_int by lia.
    rewrite IH by lia. f_equal. lia.
Qed.


(** ** Lists and the storage layer *)

Lemma find_hd_filter {A} (f : A -> bool) (l : list A) :
  find f l = hd_error (filter f l).
Proof.
  induction l as [|x l IH]; simpl; [reflexivity|].
  destruct (f x); simpl; auto.
Qed.

Lemma existsb_filter_nil {A} (f : A -> bool) (l : list A) :
  filter f l = [] -> existsb f l = false.
Proof.
  induction l as [|x l IH]; simpl; [reflexivity|].
  destruct (f x); simpl; [discriminate|auto].
Qed.

Lemma existsb_false_filter {A} (f : A -> bool) (l : list A) :
  existsb f l = false -> filter f l = [].
Proof.
  induction l as [|x l IH]; simpl; [reflexivity|].
  destruct (f x); simpl; [discriminate|auto].
Qed.

Lemma existsb_forall {A} (f : A -> bool) (l : list A) :
  existsb f l = false <-> forall x, In x l -> f x = false.
Proof.
  induction l as [|y l IH]; simpl.
  - split; [intros _ x []|reflexivity].
  - rewrite orb_false_iff, IH. split.
    + intros [Hy Hl] x [<-|Hin]; auto.
    + intros Hall. split; [apply Hall; now left|intros x Hin; apply Hall; now right].
Qed.


Lemma existsb_id_fresh (id : string) (l : list Rating) :
  ~ In id (map rating_id l) ->
  existsb (fun r => String.eqb (rating_id r) id) l = false.
Proof.
  induction l as [|x l IH]; simpl; [reflexivity|]. intros Hn.
  destruct (String.eqb_spec (rating_id x) id) as [E|E]; simpl.
  - exfalso. apply Hn. now left.
  - apply IH. intros Hin. apply Hn. now right.
Qed.

Lemma NoDup_snoc {A} (l : list A) (x : A) :
  NoDup l -> ~ In x l -> NoDup (l ++ [x]).
Proof.
  induction l as [|y l IH]; simpl; intros Hnd Hx.
  - constructor; [tauto|constructor].
  - inversion Hnd as [|? ? Hy Hnd']; subst. constructor.
    + rewrite in_app_iff. simpl. intros [Hin|[E|[]]]; [tauto|].
      apply Hx. now left.
    + apply IH; [assumption|tauto].
Qed.

Lemma as_Int_inject_Z (v : Z) : as_Int (inject_Z v) = Some v.
Proof.
  unfold as_Int, inject_Z. simpl.
  rewrite Z.quot_1_r. reflexivity.
Qed.

Lemma pair_eqb_with_rating u s r v :
  pair_eqb u s (with_rating r v) = pair_eqb u s r.
Proof. reflexivity. Qed.

Lemma pair_eqb_true u s r :
  pair_eqb u s r = true <-> rating_userId r = u /\ rating_storeId r = s.
Proof.
  unfold pair_eqb. rewrite andb_true_iff, !String.eqb_eq. tauto.
Qed.

(** Rewriting the value of the rows with a given id commutes with the
    selection of a pair. *)
Lemma filter_pair_rewrite u s id v (l : list Rating) :
  filter (pair_eqb u s)
         (map (fun x => if String.eqb (rating_id x) id then with_rating x v else x) l)
  = map (fun x => if String.eqb (rating_id x) id then with_rating x v else x)
        (filter (pair_eqb u s) l).
Proof.
  induction l as [|x l IH]; simpl; [reflexivity|].
  destruct (String.eqb (rating_id x) id) eqn:E.
  - rewrite pair_eqb_with_rating. destruct (pair_eqb u s x); simpl.
    + rewrite E, IH. reflexivity.
    + apply IH.
  - destruct (pair_eqb u s x); simpl.
    + rewrite E, IH. reflexivity.
    + apply IH.
Qed.

Lemma find_id_In (id : string) (l : list Rating) r :
  In r l -> rating_id r = id ->
  exists r', find (fun x => String.eqb (rating_id x) id) l = Some r'
             /\ rating_id r' = id.
Proof.
  intros Hin Hid.
  destruct (find (fun x => String.eqb (rating_id x) id) l) as [r'|] eqn:F.
  - exists r'. split; [reflexivity|].
    apply find_some in F. now apply String.eqb_eq.
  - exfalso. apply (find_none _ _ F) in Hin.
    rewrite Hid, String.eqb_refl in Hin. discriminate.
Qed.

Lemma find_id_unique (l : list Rating) r r' :
  NoDup (map rating_id l) -> In r l ->
  find (fun x => String.eqb (rating_id x) (rating_id r)) l = Some r' -> r' = r.
Proof.
  induction l as [|x l IH]; simpl; [tauto|].
  intros Hnd Hin F. inversion Hnd as [|? ? Hx Hnd']; subst.
  destruct (String.eqb_spec (rating_id x) (rating_id r)) as [E|E].
  - injection F as <-. destruct Hin as [->|Hin]; [reflexivity|].
    exfalso. apply Hx. rewrite E. now apply in_map.
  - destruct Hin as [->|Hin]; [congruence|]. now apply IH.
Qed.

Section Storage.
Context `{Externals}.

(** The parse of a well-formed rating body. *)
Lemma safeParse_integer (b : list (string * Js.Value)) (v : Z) :
  Js.prop "rating" b = Js.JNumber (inject_Z v) -> 1 <= v <= 5 ->
  ratingSchema_safeParse b = Some (inject_Z v).
Proof.
  intros Hb Hv. unfold ratingSchema_safeParse. rewrite Hb.
  assert (H1 : Qle_bool 1 (inject_Z v) = true).
  { apply Qle_bool_iff. change 1%Q with (inject_Z 1). rewrite <- Zle_Qle. lia. }
  assert (H5 : Qle_bool (inject_Z v) 5 = true).
  { apply Qle_bool_iff. change 5%Q with (inject_Z 5). rewrite <- Zle_Qle. lia. }
  rewrite H1, H5. reflexivity.
Qed.

(** The lookup of a well-formed request parks the handler with whatever
    row the pair has. *)
Lemma lookup_rates req u role s v db :
  rates req u role s v -> 1 <= v <= 5 ->
  submitRating_lookup req db
  = AwaitWrite (mkPayload u role) s (inject_Z v) (hd_error (rows db u s)).
Proof.
  intros (Ha & Hs & Hb) Hv. unfold submitRating_lookup.
  rewrite Ha, (safeParse_integer _ _ Hb Hv), Hs. simpl.
  unfold rating_findUnique. rewrite find_hd_filter. reflexivity.
Qed.

(** A create for a pair without a row goes through and adds the one row. *)
Lemma create_absent now db u s v :
  rows db u s = [] -> fresh_id db ->
  has_user db u = true -> has_store db s = true ->
  rating_create now db u s (inject_Z v)
  = inr (mkDb (users db) (stores db)
              (ratings db ++ [mkRating (cuid (idSeed db)) u s v now])
              (S (idSeed db)),
         mkRating (cuid (idSeed db)) u s v now).
Proof.
  intros Hr Hf Hu Hs. unfold rating_create.
  rewrite as_Int_inject_Z, (existsb_id_fresh _ _ Hf).
  rewrite (existsb_filter_nil _ _ Hr), Hu, Hs. reflexivity.
Qed.


(** An update through the id of the pair's only row rewrites that row. *)
Lemma update_present db u s v r :
  rows db u s = [r] ->
  exists db' r',
    rating_update db (rating_id r) (inject_Z v) = inr (db', with_rating r' v)
    /\ find (fun x => String.eqb (rating_id x) (rating_id r)) (ratings db) = Some r'
    /\ users db' = users db /\ stores db' = stores db /\ idSeed db' = idSeed db
    /\ map rating_id (ratings db') = map rating_id (ratings db)
    /\ rows db' u s = [with_rating r v].
Proof.
  intros Hr. unfold rating_update. rewrite as_Int_inject_Z.
  assert (Hin : In r (ratings db)).
  { assert (In r (rows db u s)) by (rewrite Hr; now left).
    unfold rows in *. now apply filter_In in H0. }
  destruct (find_id_In (rating_id r) _ _ Hin eq_refl) as (r' & F & Hid).
  rewrite F. eexists; exists r'. split; [reflexivity|].
  split; [reflexivity|]. simpl. repeat split.
  - rewrite map_map. apply map_ext. intros x.
    destruct (String.eqb _ _); reflexivity.
  - unfold rows. simpl. rewrite filter_pair_rewrite.
    fold (rows db u s). rewrite Hr. simpl. rewrite String.eqb_refl. reflexivity.
Qed.

(** ** One request at a time *)

(** The first rating of a pair: a row with a fresh id, stamped [now]. *)
Lemma submitRating_absent now req db u role s v :
  rates req u role s v -> 1 <= v <= 5 ->
  rows db u s = [] -> fresh_id db ->
  has_user db u = true -> has_store db s = true ->
  submitRating now req db
  = (Respond 200 (RatingBody (mkRating (cuid (idSeed db)) u s v now)),
     mkDb (users db) (stores db)
          (ratings db ++ [mkRating (cuid (idSeed db)) u s v now])
          (S (idSeed db))).
Proof.
  intros Hreq Hv Hr Hf Hu Hs. unfold submitRating.
  rewrite (lookup_rates _ _ _ _ _ db Hreq Hv), Hr. simpl.
  rewrite (create_absent now db u s v Hr Hf Hu Hs). reflexivity.
Qed.

(** A later rating of the pair: the row keeps everything but its value. *)
Lemma submitRating_present now req db u role s v r :
  rates req u role s v -> 1 <= v <= 5 ->
  primary_key db -> rows db u s = [r] ->
  exists db',
    submitRating now req db = (Respond 200 (RatingBody (with_rating r v)), db')
    /\ rows db' u s = [with_rating r v]
    /\ map rating_id (ratings db') = map rating_id (ratings db)
    /\ users db' = users db /\ stores db' = stores db /\ idSeed db' = idSeed db.
Proof.
  intros Hreq Hv Hpk Hr. unfold submitRating.
  rewrite (lookup_rates _ _ _ _ _ db Hreq Hv), Hr. simpl.
  assert (Hin : In r (ratings db)).
  { assert (Hi : In r (rows db u s)) by (rewrite Hr; now left).
    unfold rows in Hi. now apply filter_In in Hi. }
  destruct (update_present db u s v r Hr)
    as (db' & r' & Hup & F & Hus & Hst & Hseed & Hids & Hrows).
  pose proof (find_id_unique _ _ _ Hpk Hin F) as ->.
  rewrite Hup. exists db'. repeat split; assumption.
Qed.

Lemma rows_app db u s r :
  filter (pair_eqb u s) (ratings db ++ [r])
  = (rows db u s ++ (if pair_eqb u s r then [r] else []))%list.
Proof. unfold rows. rewrite filter_app. reflexivity. Qed.

(** C1. For a user [u] and a store [s] that exist and values [v1], [v2] in
    [1,5]: rating [s] with [v1] and then with [v2] answers both requests
    with the row, leaves exactly one row for the pair, whose value is [v2]
    and whose id and creation time are those of the row of the first
    request (which that request created, at its own time, when the pair had
    none). *)
Theorem submitRating_twice_one_row
  (db : Db) (u : string) (role : Role) (s : string) (v1 v2 t1 t2 : Z)
  (req1 req2 : Request) :
  unique_index db -> primary_key db ->
  has_user db u = true -> has_store db s = true ->
  (rows db u s = [] -> fresh_id db) ->
  1 <= v1 <= 5 -> 1 <= v2 <= 5 ->
  rates req1 u role s v1 -> rates req2 u role s v2 ->
  exists r1 r2 db1 db2,
    submitRating t1 req1 db = (Respond 200 (RatingBody r1), db1)
    /\ rows db1 u s = [r1]
    /\ (rows db u s = [] -> r1 = mkRating (cuid (idSeed db)) u s v1 t1)
    /\ submitRating t2 req2 db1 = (Respond 200 (RatingBody r2), db2)
    /\ rows db2 u s = [r2]
    /\ rating_value r2 = v2
    /\ rating_id r2 = rating_id r1
    /\ rating_createdAt r2 = rating_createdAt r1.
Proof.
  intros Huq Hpk Hu Hs Hf Hv1 Hv2 Hr1 Hr2.
  destruct (rows db u s) as [|r0 rest] eqn:Hrows.
  - (* the first request creates the row *)
    specialize (Hf eq_refl).
    pose proof (submitRating_absent t1 req1 db u role s v1 Hr1 Hv1 Hrows Hf Hu Hs) as E1.
    set (r1 := mkRating (cuid (idSeed db)) u s v1 t1) in *.
    set (db1 := mkDb _ _ _ _) in E1.
    assert (Hrows1 : rows db1 u s = [r1]).
    { unfold rows at 1. simpl. rewrite rows_app, Hrows. simpl.
      unfold pair_eqb. simpl. rewrite !String.eqb_refl. reflexivity. }
    assert (Hpk1 : primary_key db1).
    { unfold primary_key. simpl. rewrite map_app. simpl.
      apply NoDup_snoc; assumption. }
    destruct (submitRating_present t2 req2 db1 u role s v2 r1 Hr2 Hv2 Hpk1 Hrows1)
      as (db2 & E2 & Hrows2 & _).
    exists r1, (with_rating r1 v2), db1, db2. repeat split; auto.
  - (* the pair had a row already *)
    assert (rest = []) as ->.
    { specialize (Huq u s). rewrite Hrows in Huq. simpl in Huq.
      destruct rest; [reflexivity|simpl in Huq; lia]. }
    destruct (submitRating_present t1 req1 db u role s v1 r0 Hr1 Hv1 Hpk Hrows)
      as (db1 & E1 & Hrows1 & Hids & _).
    assert (Hpk1 : primary_key db1) by (unfold primary_key; now rewrite Hids).
    destruct (submitRating_present t2 req2 db1 u role s v2 _ Hr2 Hv2 Hpk1 Hrows1)
      as (db2 & E2 & Hrows2 & _).
    exists (with_rating r0 v1), (with_rating (with_rating r0 v1) v2), db1, db2.
    repeat split; auto. discriminate.
Qed.

(** The two constraints the theorem starts from are kept by every request,
    whatever it carries: they hold in every state the handler can reach. *)
Lemma submitRating_keeps_constraints now req db :
  unique_index db -> primary_key db ->
  unique_index (snd (submitRating now req db))
  /\ primary_key (snd (submitRating now req db)).
Proof.
  intros Huq Hpk. unfold submitRating, submitRating_lookup.
  destruct (authMiddleware req) as [r|me]; [now split|].
  destruct (ratingSchema_safeParse (body req)) as [q|]; [|now split].
  destruct (rating_findUnique db (payload_id me) (params_id req)) as [e|]; simpl.
  - unfold rating_update. destruct (as_Int q) as [n|]; [|now split].
    destruct (find _ (ratings db)) as [r|]; [|now split]. simpl. split.
    + intros u' s'. unfold rows. simpl.
      rewrite filter_pair_rewrite, length_map. apply Huq.
    + unfold primary_key. simpl. rewrite map_map.
      erewrite map_ext; [exact Hpk|].
      intros x. destruct (String.eqb _ _); reflexivity.
  - unfold rating_create. destruct (as_Int q) as [n|]; [|now split].
    destruct (existsb _ (ratings db)) eqn:Eid; [now split|].
    destruct (existsb (pair_eqb _ _) (ratings db)) eqn:Epair; [now split|].
    destruct (negb _); [now split|]. simpl. split.
    + intros u' s'. unfold rows at 1. simpl. rewrite rows_app, length_app.
      destruct (pair_eqb u' s' _) eqn:E; simpl.
      * apply pair_eqb_true in E. simpl in E. destruct E as [<- <-].
        unfold rows. rewrite (existsb_false_filter _ _ Epair). simpl. lia.
      * specialize (Huq u' s'). lia.
    + unfold primary_key. simpl. rewrite map_app. simpl.
      apply NoDup_snoc; [exact Hpk|].
      intros Hin. apply in_map_iff in Hin as (x & Hx & Hin).
      rewrite existsb_forall in Eid. specialize (Eid x Hin).
      rewrite Hx, String.eqb_refl in Eid. discriminate.
Qed.

(** ** What the handler refuses *)

(** A body without a number in [1,5] under [rating] is answered with 400
    before the database is read. *)
Lemma submitRating_invalid now req db me :
  authMiddleware req = inr me ->
  ratingSchema_safeParse (body req) = None ->
  submitRating now req db = (invalid, db).
Proof.
  intros Ha Hp. unfold submitRating, submitRating_lookup.
  rewrite Ha, Hp. reflexivity.
Qed.

Lemma safeParse_out_of_range b (q : Q) :
  Js.prop "rating" b = Js.JNumber q -> (q < 1 \/ 5 < q)%Q ->
  ratingSchema_safeParse b = None.
Proof.
  intros Hb Hq. unfold ratingSchema_safeParse. rewrite Hb.
  destruct (Qle_bool 1 q) eqn:E1; [|reflexivity].
  destruct (Qle_bool q 5) eqn:E5; [|reflexivity].
  apply Qle_bool_iff in E1, E5. exfalso.
  destruct Hq as [Hq|Hq]; [apply (Qlt_not_le _ _ Hq E1)|apply (Qlt_not_le _ _ Hq E5)].
Qed.

(** No path of the handler answers 403 or 404. *)
Lemma submitRating_statuses now req db status b :
  fst (submitRating now req db) = Respond status b ->
  status = 200%nat \/ status = 400%nat \/ status = 401%nat.
Proof.
  unfold submitRating, submitRating_lookup, authMiddleware, unauthorized, invalid.
  destruct (authorization req) as [h|]; simpl.
  2: { intros E; injection E as <- _; auto. }
  destruct (String.eqb h ""); simpl.
  1: { intros E; injection E as <- _; auto. }
  destruct (verifyToken _) as [me|]; simpl.
  2: { intros E; injection E as <- _; auto. }
  destruct (ratingSchema_safeParse _) as [q|]; simpl.
  2: { intros E; injection E as <- _; auto. }
  destruct (rating_findUnique _ _ _) as [r|].
  - destruct (rating_update _ _ _) as [e|[db' r']]; simpl; [discriminate|].
    intros E; injection E as <- _; auto.
  - destruct (rating_create _ _ _ _ _) as [e|[db' r']]; simpl; [discriminate|].
    intros E; injection E as <- _; auto.
Qed.

(** A failed create leaves the database as it was. *)
Lemma create_unknown_store now db u s q :
  has_store db s = false ->
  exists e, rating_create now db u s q = inl e
            /\ (e = ClientValidation \/ e = P2003 \/ exists t, e = P2002 t).
Proof.
  intros Hs. unfold rating_create.
  destruct (as_Int q); [|eauto].
  destruct (existsb _ (ratings db)); [eauto 6|].
  destruct (existsb _ (ratings db)); [eauto 6|].
  rewrite Hs, andb_false_r. simpl. eauto.
Qed.

Lemma rows_unknown_store db u s :
  foreign_keys db -> has_store db s = false -> rows db u s = [].
Proof.
  intros Hfk Hs. unfold rows.
  destruct (filter _ _) as [|r rs] eqn:F; [reflexivity|exfalso].
  assert (Hin : In r (filter (pair_eqb u s) (ratings db))) by (rewrite F; now left).
  apply filter_In in Hin as [Hin Hp]. apply pair_eqb_true in Hp as [_ Hp].
  destruct (Hfk r Hin) as [_ Hst]. congruence.
Qed.

(** C9, as the handler has it.  An authenticated request for a store that
    does not exist never gets a 404: with a rating that the schema refuses
    it is answered 400 [invalid]; otherwise the handler finds no row, tries
    the create, the storage layer refuses it (the foreign key on the store,
    for an integer rating and a fresh id) and the handler rejects with that
    error.  In every case the database is left as it was. *)
Theorem submitRating_unknown_store now req db me :
  authMiddleware req = inr me ->
  foreign_keys db ->
  has_store db (params_id req) = false ->
  snd (submitRating now req db) = db
  /\ (fst (submitRating now req db) = invalid
      \/ exists e, fst (submitRating now req db) = Throws e)
  /\ (forall b, fst (submitRating now req db) <> Respond 404 b)
  /\ (ratingSchema_safeParse (body req) = None ->
      fst (submitRating now req db) = invalid)
  /\ (forall v, Js.prop "rating" (body req) = Js.JNumber (inject_Z v) ->
      1 <= v <= 5 -> fresh_id db ->
      fst (submitRating now req db) = Throws P2003).
Proof.
  intros Ha Hfk Hs.
  pose proof (rows_unknown_store db (payload_id me) _ Hfk Hs) as Hrows.
  assert (Hfind : rating_findUnique db (payload_id me) (params_id req) = None).
  { unfold rating_findUnique. rewrite find_hd_filter. fold (rows db (payload_id me) (params_id req)).
    now rewrite Hrows. }
  unfold submitRating, submitRating_lookup. rewrite Ha.
  destruct (ratingSchema_safeParse (body req)) as [q|] eqn:Hp; simpl.
  - rewrite Hfind.
    destruct (create_unknown_store now db (payload_id me) _ q Hs) as (e & He & _).
    rewrite He. simpl.
    split; [reflexivity|]. split; [right; eauto|].
    split; [intros b; discriminate|]. split; [discriminate|].
    intros v Hb Hv Hf.
    rewrite (safeParse_integer _ _ Hb Hv) in Hp. injection Hp as <-.
    unfold rating_create in He.
    rewrite as_Int_inject_Z, (existsb_id_fresh _ _ Hf) in He.
    rewrite (existsb_filter_nil _ _ Hrows), Hs, andb_false_r in He. simpl in He.
    congruence.
  - split; [reflexivity|]. split; [left; reflexivity|].
    split; [unfold invalid; intros b; discriminate|]. split; [reflexivity|].
    intros v Hb Hv _.
    rewrite (safeParse_integer _ _ Hb Hv) in Hp. discriminate.
Qed.

(** ** [PATCH /users/:id/password] *)

Lemma user_update_password_spec db id pwd :
  has_user db id = true ->
  exists db', user_update_password db id pwd = inr db'
    /\ Forall2 (password_set id pwd) (users db) (users db')
    /\ stores db' = stores db /\ ratings db' = ratings db.
Proof.
  intros Hu. unfold user_update_password. rewrite Hu.
  eexists. split; [reflexivity|]. simpl. repeat split.
  induction (users db) as [|r l IH]; simpl; constructor; [|exact IH].
  unfold password_set.
  destruct (String.eqb_spec (user_id (row_user r)) id) as [E|E]; simpl; tauto.
Qed.

(** C10, as the handler has it.  With a valid token, whoever it belongs
    to, and a non-empty new password: when the id in the path is that of
    an account, the handler stores the hash of the password for that
    account, touches no other and answers [{ success: true }]; when it is
    not, the update is rejected (record not found) and nothing changes.
    The caller's id and role are never compared with the target, and no
    request is answered 403. *)
Theorem updatePassword_any_target salt req db me p :
  authMiddleware req = inr me ->
  Js.prop "newPassword" (body req) = Js.JString p -> p <> "" ->
  (has_user db (params_id req) = true ->
   exists db',
     updatePassword salt req db = (Respond 200 SuccessBody, db')
     /\ Forall2 (password_set (params_id req) (bcrypt_hash p salt))
                (users db) (users db'))
  /\ (has_user db (params_id req) = false ->
      updatePassword salt req db = (Throws P2025, db))
  /\ (forall b, fst (updatePassword salt req db) <> Respond 403 b).
Proof.
  intros Ha Hb Hp. unfold updatePassword. rewrite Ha, Hb. simpl.
  destruct (String.eqb_spec p "") as [E|_]; [contradiction|].
  split; [|split].
  - intros Hu.
    destruct (user_update_password_spec db _ (bcrypt_hash p salt) Hu)
      as (db' & E & Hall & _).
    rewrite E. eauto.
  - intros Hu. unfold user_update_password. rewrite Hu. reflexivity.
  - intros b. destruct (user_update_password _ _ _); simpl; discriminate.
Qed.

End Storage.

(** ** Two requests for the same pair, interleaved *)

Section Concurrency.
Context `{Externals}.
Variables (u s : string) (vA vB : Z) (db0 : Db).
Hypothesis fresh0 : fresh_id db0.
Hypothesis user0 : has_user db0 u = true.
Hypothesis store0 : has_store db0 s = true.

Import EventLoop.












End Concurrency.

(** ** Averages *)

Lemma or_zero_double (x : Q) : Js.or_zero (Some (Js.double x)) = Js.double x.
Proof.
  unfold Js.or_zero. destruct (Qeq_bool (Js.double x) 0) eqn:E; [|reflexivity].
  apply Qeq_bool_iff in E. rewrite <- double_reduced.
  now rewrite (Qred_complete _ _ E).
Qed.

(** The reduction of [getStoreAverageRating] and the [AVG] of the server,
    over ratings that add up without rounding: the exact mean, rounded
    once. *)
Lemma average_of_exact_sum (rs : list Rating) :
  rs <> [] -> exact_sum (map rating_value rs) ->
  Js.div (fold_left (fun acc r => Js.add acc (inject_Z (rating_value r))) rs 0%Q)
         (inject_Z (Z.of_nat (List.length rs)))
  = Js.double (mean (map rating_value rs)).
Proof.
  intros _ Hs. change 0%Q with (inject_Z 0).
  rewrite (add_exact rating_value rs 0) by exact Hs.
  unfold Js.div, mean. now rewrite length_map.
Qed.

Lemma client_average (held : list Rating) (storeId : string) :
  values_of storeId held <> [] -> exact_sum (values_of storeId held) ->
  DataContext.getStoreAverageRating held storeId
  = Js.double (mean (values_of storeId held)).
Proof.
  unfold values_of, DataContext.getStoreAverageRating. intros Hne Hs.
  destruct (filter _ held) as [|r rs] eqn:F; [now contradiction Hne|].
  cbn [List.length Nat.eqb]. apply average_of_exact_sum; [discriminate|exact Hs].
Qed.

Lemma server_average (db : Db) (storeId : string) :
  values_of storeId (ratings db) <> [] -> exact_sum (values_of storeId (ratings db)) ->
  averageRating db storeId = Js.double (mean (values_of storeId (ratings db))).
Proof.
  unfold values_of, averageRating, rating_avg. intros Hne Hs.
  destruct (filter _ (ratings db)) as [|r rs] eqn:F; [now contradiction Hne|].
  rewrite (average_of_exact_sum (r :: rs)) by (try discriminate; exact Hs).
  apply or_zero_double.
Qed.

(** A mean that is a whole number is a double, when the sum is one. *)
Lemma mean_integer (l : list Z) (k : Z) :
  l <> [] -> exact_sum l -> (mean l == inject_Z k)%Q ->
  Js.double (mean l) = inject_Z k.
Proof.
  intros Hne Hs Hk. rewrite (double_proper _ _ Hk). apply double_int.
  pose proof (sum_abs_le l) as Hle. unfold exact_sum in Hs.
  assert (Hn : 1 <= Z.of_nat (List.length l)) by (destruct l; [congruence|simpl; lia]).
  unfold mean in Hk.
  set (total := fold_right Z.add 0 l) in *. set (n := Z.of_nat (List.length l)) in *.
  assert (E : total = k * n).
  { assert (H1 : (inject_Z total / inject_Z n <= inject_Z k)%Q)
      by (rewrite Hk; apply Qle_refl).
    assert (H2 : (inject_Z k <= inject_Z total / inject_Z n)%Q)
      by (rewrite Hk; apply Qle_refl).
    apply (proj1 (Qle_div_int k total n ltac:(lia))) in H1.
    apply (proj1 (Qle_int_div k total n ltac:(lia))) in H2. lia. }
  rewrite E in Hle. nia.
Qed.

(** C5, as the code has it.  The average of a store is exactly 0 when no
    rating names the store.  Otherwise, for ratings that add up without
    rounding (their magnitudes sum to less than 2^53), it is the mean
    [sum / n] rounded once, to a double: it differs from the exact mean
    by at most the [2^53]-th part of it and equals it when the mean is a
    whole number; nothing else is rounded.  This holds of
    [getStoreAverageRating] of the client and of the [averageRating] the
    server puts in its listings. *)
Theorem average_rating_is_rounded_mean (held : list Rating) (db : Db) (storeId : string) :
  let vs := values_of storeId held in
  let ws := values_of storeId (ratings db) in
  (vs = [] -> DataContext.getStoreAverageRating held storeId = 0%Q)
  /\ (ws = [] -> averageRating db storeId = 0%Q)
  /\ (vs <> [] -> exact_sum vs ->
      DataContext.getStoreAverageRating held storeId = Js.double (mean vs)
      /\ (Qabs (DataContext.getStoreAverageRating held storeId - mean vs)
          * inject_Z (2 ^ 53) <= Qabs (mean vs))%Q
      /\ forall k, (mean vs == inject_Z k)%Q ->
                   DataContext.getStoreAverageRating held storeId = inject_Z k)
  /\ (ws <> [] -> exact_sum ws ->
      averageRating db storeId = Js.double (mean ws)
      /\ (Qabs (averageRating db storeId - mean ws)
          * inject_Z (2 ^ 53) <= Qabs (mean ws))%Q
      /\ forall k, (mean ws == inject_Z k)%Q ->
                   averageRating db storeId = inject_Z k).
Proof.
  intros vs ws. split; [|split; [|split]].
  - unfold vs, values_of, DataContext.getStoreAverageRating.
    destruct (filter _ held); [reflexivity|discriminate].
  - unfold ws, values_of, averageRating, rating_avg.
    destruct (filter _ (ratings db)); [reflexivity|discriminate].
  - intros Hne Hs. rewrite (client_average held storeId Hne Hs). fold vs.
    split; [reflexivity|]. split; [apply double_error|].
    intros k Hk. now apply mean_integer.
  - intros Hne Hs. rewrite (server_average db storeId Hne Hs). fold ws.
    split; [reflexivity|]. split; [apply double_error|].
    intros k Hk. now apply mean_integer.
Qed.

(** ** Paging *)





(** ** Filters *)

Lemma startsWith_spec (p s : string) :
  Js.startsWith p s = true <-> exists post, s = p ++ post.
Proof.
  revert s. induction p as [|a p IH]; intros s; simpl.
  - split; [intros _; now exists s|reflexivity].
  - destruct s as [|b s]; simpl.
    + split; [discriminate|intros [post E]; discriminate].
    + rewrite andb_true_iff, Ascii.eqb_eq, IH. split.
      * intros [-> [post ->]]. now exists post.
      * intros [post E]. injection E as -> ->. split; [reflexivity|now exists post].
Qed.

Lemma includes_spec (s t : string) :
  Js.includes s t = true <-> substring t s.
Proof.
  unfold substring. split.
  - induction s as [|c s IH]; simpl; rewrite orb_true_iff.
    + intros [Hs|Hf]; [|discriminate].
      apply startsWith_spec in Hs as [post E]. now exists "", post.
    + intros [Hs|Hi].
      * apply startsWith_spec in Hs as [post E]. now exists "", post.
      * destruct (IH Hi) as (pre & post & ->). now exists (String c pre), post.
  - intros (pre & post & ->). induction pre as [|c pre IH]; simpl.
    + assert (Hs : Js.startsWith t (t ++ post) = true)
        by (apply startsWith_spec; now exists post).
      destruct (t ++ post); simpl; rewrite Hs; reflexivity.
    + rewrite IH. apply orb_true_r.
Qed.

Lemma substring_empty (s : string) : substring "" s.
Proof. now exists "", s. Qed.

Lemma insert_sorted_In {A} (cmp : A -> A -> Z) (x y : A) (l : list A) :
  In y (Js.insert_sorted cmp x l) <-> y = x \/ In y l.
Proof.
  induction l as [|z l IH]; simpl.
  - intuition congruence.
  - destruct (0 <? cmp x z); simpl; [rewrite IH|]; intuition congruence.
Qed.

(** Sorting keeps the matches. *)
Lemma sort_In {A} (cmp : A -> A -> Z) (y : A) (l : list A) :
  In y (Js.sort cmp l) <-> In y l.
Proof.
  induction l as [|x l IH]; simpl; [tauto|].
  rewrite insert_sorted_In, IH. intuition congruence.
Qed.

(** The filter of the admin page [StoreManagement]: name, address and the
    email of the owner, case ignored. *)
Lemma storeManagement_filter shown term field order x :
  In x (StoreManagement.filteredStores shown term field order)
  <-> In x shown
      /\ (substring_ci term (store_name (StoreManagement.store x))
          \/ substring_ci term (store_address (StoreManagement.store x))
          \/ exists o, StoreManagement.owner x = Some o
                       /\ substring_ci term (user_email o)).
Proof.
  unfold StoreManagement.filteredStores. rewrite sort_In.
  destruct (String.eqb_spec term "") as [->|_].
  - split; [|tauto]. intros Hin. split; [exact Hin|]. left. apply substring_empty.
  - rewrite filter_In. unfold StoreManagement.matches, substring_ci.
    rewrite !orb_true_iff, !includes_spec.
    destruct (StoreManagement.owner x) as [o|].
    + rewrite includes_spec. split.
      * intros [Hin [[Hn|Ha]|Ho]]; eauto 6.
      * intros [Hin [Hn|[Ha|(o' & E & Ho)]]]; auto.
        injection E as <-. auto.
    + split.
      * intros [Hin [[Hn|Ha]|Ho]]; auto. discriminate.
      * intros [Hin [Hn|[Ha|(o' & E & Ho)]]]; auto. discriminate.
Qed.

Section Listings.
Context `{Externals}.

(** The search of the listings.  Without a search term the admin listing
    of the stores holds every store.  With one, the query carries
    [mode: "insensitive"], which the SQLite connector does not have: the
    client refuses the query and the handler rejects, so that none of the
    three listings sends a list. *)
Lemma admin_listStores_search req db me :
  authMiddleware req = inr me ->
  (payload_role me = admin ->
   no_search req ->
   query_string "sortField" (query req) = None ->
   query_string "sortOrder" (query req) = None ->
   exists listed,
     admin_listStores req db = Respond 200 (StoresBody listed)
     /\ forall st, In st (map sj_store listed) <-> In st (stores db))
  /\ (forall q, query_string "q" (query req) = Some q -> q <> "" ->
      listStores req db = Throws ClientValidation
      /\ (payload_role me = admin ->
          admin_listStores req db = Throws ClientValidation
          /\ admin_listUsers req db = Throws ClientValidation)).
Proof.
  intros Ha. split.
  - intros Hrole Hq Hf Ho. unfold admin_listStores.
    rewrite Ha, Hrole, Hf, Ho. simpl.
    assert (Hplain : search_refused (query_string "q" (query req)) = false
                     /\ forall s, where_store (query_string "q" (query req)) s = true).
    { destruct Hq as [-> | ->]; split; reflexivity. }
    destruct Hplain as [-> Hall].
    eexists. split; [reflexivity|]. intros st.
    rewrite map_map. simpl. rewrite map_id. unfold orderBy.
    rewrite sort_In, filter_In. rewrite Hall. tauto.
  - intros q Hq Hne.
    assert (Hrefused : search_refused (Some q) = true).
    { unfold search_refused, has_search.
      destruct (String.eqb_spec q "") as [E|_]; [contradiction|reflexivity]. }
    split.
    + unfold listStores. now rewrite Ha, Hq, Hrefused.
    + intros Hrole. split.
      * unfold admin_listStores. rewrite Ha, Hrole, Hq, Hrefused. simpl.
        destruct (store_column _); [|reflexivity].
        destruct (sort_direction _); reflexivity.
      * unfold admin_listUsers. rewrite Ha, Hrole, Hq, Hrefused. simpl.
        destruct (user_column _); [|reflexivity].
        destruct (sort_direction _); reflexivity.
Qed.

(** Neither admin listing of the server reads a page: a [page] parameter
    in the query changes nothing in the answer, which holds every match. *)
Lemma admin_listings_unpaged req db page :
  let paged := mkRequest (authorization req) (params_id req)
                         (("page", page) :: query req) (body req) in
  admin_listUsers paged db = admin_listUsers req db
  /\ admin_listStores paged db = admin_listStores req db.
Proof. split; reflexivity. Qed.

End Listings.

(** ** The two sides of the merge *)

Lemma rows_for_rewrite u s ratingId v (l : list Rating) :
  DataContext.rows_for u s (DataContext.rewrite_rating ratingId v l)
  = DataContext.rows_for u s l.
Proof.
  unfold DataContext.rows_for, DataContext.rewrite_rating.
  induction l as [|x l IH]; simpl; [reflexivity|].
  destruct (String.eqb (rating_id x) ratingId); simpl;
    destruct (String.eqb (rating_userId x) u && String.eqb (rating_storeId x) s);
    simpl; rewrite IH; reflexivity.
Qed.

(** The side 96691ba never changes how many rows a pair has on an edit. *)
Lemma theirs_updateRating_rows u s ratingId v (l : list Rating) :
  DataContext.rows_for u s (DataContext.Theirs.updateRating ratingId v l)
  = DataContext.rows_for u s l.
Proof. apply rows_for_rewrite. Qed.

(** The HEAD side, without a session token, adds a row to the pair of the
    rating on every edit. *)
Lemma head_updateRating_rows `{Externals} now ratingId v w existing :
  find (fun r => String.eqb (rating_id r) ratingId) (DataContext.Head.ratings w)
  = Some existing ->
  DataContext.rows_for (rating_userId existing) (rating_storeId existing)
    (DataContext.Head.ratings (DataContext.Head.updateRating now None ratingId v w))
  = S (DataContext.rows_for (rating_userId existing) (rating_storeId existing)
         (DataContext.Head.ratings w)).
Proof.
  intros F. unfold DataContext.Head.updateRating. rewrite F. simpl.
  rewrite rows_for_rewrite. unfold DataContext.rows_for.
  rewrite filter_app, length_app. simpl. rewrite !String.eqb_refl. simpl. lia.
Qed.

(** * The demo deployment *)

#[local] Existing Instance Demo.externals.

(** The scenario of the three ratings: an empty average is 0; user ["3"]
    rates store ["1"] with 4, user ["4"] with 5, then user ["3"] changes to
    2: the store has two rows and averages 4, 9/2 and 7/2 in turn. *)
Example ledger_scenario :
  let db1 := snd (submitRating 1 (Demo.rate "t-user" "1" 4) Demo.empty_db) in
  let db2 := snd (submitRating 2 (Demo.rate "t-user2" "1" 5) db1) in
  let db3 := snd (submitRating 3 (Demo.rate "t-user" "1" 2) db2) in
  averageRating Demo.empty_db "1" = 0%Q
  /\ averageRating db1 "1" = 4%Q
  /\ averageRating db2 "1" = (9 # 2)%Q
  /\ averageRating db3 "1" = (7 # 2)%Q
  /\ ratings db3 = [mkRating "c0" "3" "1" 2 1; mkRating "c1" "4" "1" 5 2].
Proof. vm_compute. repeat split; reflexivity. Qed.

(** C3. The two sides of the merge do not agree.  Editing the demo rating
    ["1"] (user ["3"], store ["1"]) to 2: the side 96691ba rewrites the row
    and keeps three rows, one for the pair; the HEAD side ends with four
    rows, two of them for the pair, both without a token (a local copy is
    appended) and with one (the row the server answers with is appended). *)
Theorem merge_sides_diverge_on_edit :
  let start := DataContext.initialRatings 0 in
  let theirs := DataContext.Theirs.updateRating "1" 2 start in
  let head_offline :=
    DataContext.Head.ratings
      (DataContext.Head.updateRating 1700000000000 None "1" 2
         (DataContext.Head.mkWorld start Demo.db)) in
  let head_online :=
    DataContext.Head.ratings
      (DataContext.Head.updateRating 1700000000000 (Some "t-user") "1" 2
         (DataContext.Head.mkWorld start Demo.db)) in
  theirs = [mkRating "1" "3" "1" 2 0; mkRating "2" "4" "1" 5 0; mkRating "3" "3" "2" 3 0]
  /\ DataContext.rows_for "3" "1" theirs = 1%nat
  /\ head_offline = (theirs ++ [mkRating "1700000000000" "3" "1" 2 1700000000000])%list
  /\ DataContext.rows_for "3" "1" head_offline = 2%nat
  /\ head_online = (theirs ++ [mkRating "1" "3" "1" 2 0])%list
  /\ DataContext.rows_for "3" "1" head_online = 2%nat.
Proof. vm_compute. repeat split; reflexivity. Qed.

(** C4. A rating of 2.5 passes the schema of the validator, which asks for
    a number from 1 to 5 and not for an integer: the handler does not
    answer 400 but goes on to the storage layer, which keeps the integer
    part.  User ["4"], who has not rated store ["2"], is answered 200 with
    a new row of rating 2; user ["3"], who has rated store ["1"] with 4, is
    answered 200 with that row rewritten to 2.  Ratings of 0 and 6 are
    answered 400 [invalid]. *)
Theorem submitRating_accepts_fraction :
  ratingSchema_safeParse [("rating", Js.JNumber (5 # 2))] = Some (5 # 2)
  /\ submitRating 100 (Demo.rate "t-user2" "2" (5 # 2)) Demo.db
     = (Respond 200 (RatingBody (mkRating "c0" "4" "2" 2 100)),
        mkDb (users Demo.db) (stores Demo.db)
             (ratings Demo.db ++ [mkRating "c0" "4" "2" 2 100]) 1)
  /\ fst (submitRating 100 (Demo.rate "t-user" "1" (5 # 2)) Demo.db)
     = Respond 200 (RatingBody (mkRating "1" "3" "1" 2 0))
  /\ rows (snd (submitRating 100 (Demo.rate "t-user" "1" (5 # 2)) Demo.db)) "3" "1"
     = [mkRating "1" "3" "1" 2 0]
  /\ submitRating 100 (Demo.rate "t-user" "1" 0) Demo.db = (invalid, Demo.db)
  /\ submitRating 100 (Demo.rate "t-user" "1" 6) Demo.db = (invalid, Demo.db).
Proof. repeat split; reflexivity. Qed.

(** C6. [GET /admin/stores?q=owner@storerating.com], asked by the admin.
    The owner of both demo stores has that email, and the admin page
    [StoreManagement] lists both stores for the term.  The [where] of the
    handler names the name and the address only and selects neither
    store; and as it carries [mode: "insensitive"], the client of the
    SQLite database refuses the query: the handler rejects and sends no
    list. *)
Theorem admin_stores_filter_misses_owner_email :
  let q := "owner@storerating.com" in
  admin_listStores (mkRequest (Some "Bearer t-admin") "" [("q", q)] []) Demo.db
  = Throws ClientValidation
  /\ Forall (fun st => where_store (Some q) st = false
                       /\ exists o, owner_of Demo.db st = Some o
                                    /\ substring_ci q (user_email o))
            (stores Demo.db)
  /\ map StoreManagement.store
         (StoreManagement.filteredStores
            (StoreManagement.storesWithRatings
               (DataContext.initialStores 0) (DataContext.initialUsers 0)
               (DataContext.initialRatings 0))
            q StoreManagement.createdAt Js.desc)
     = DataContext.initialStores 0.
Proof.
  intros q. split; [reflexivity|]. split; [|reflexivity].
  repeat constructor; eexists; (split; [reflexivity|]);
    apply includes_spec; reflexivity.
Qed.

(** C8. The admin of the demo rates store ["1"]: the handler never looks
    at the role, creates the row and answers with it. *)
Theorem admin_can_rate :
  verifyToken "t-admin" = Some (mkPayload "1" admin)
  /\ submitRating 100 (Demo.rate "t-admin" "1" 5) Demo.db
     = (Respond 200 (RatingBody (mkRating "c0" "1" "1" 5 100)),
        mkDb (users Demo.db) (stores Demo.db)
             (ratings Demo.db ++ [mkRating "c0" "1" "1" 5 100]) 1)
  /\ fst (submitRating 100 (Demo.rate "t-owner" "1" 5) Demo.db)
     = Respond 200 (RatingBody (mkRating "c0" "2" "1" 5 100)).
Proof. repeat split; reflexivity. Qed.


(** Against C5 as written: a store with the ratings 4, 5 and 5.  Their
    mean is 14/3, which is no double; the average is the double next to
    it, 5254199565265579 / 2^50, on the client and on the server. *)
Lemma average_of_three_is_rounded :
  let held := [mkRating "1" "3" "1" 4 0; mkRating "2" "4" "1" 5 0;
               mkRating "3" "5" "1" 5 0] in
  (mean (values_of "1" held) == 14 # 3)%Q
  /\ DataContext.getStoreAverageRating held "1"
     = (5254199565265579 # 1125899906842624)%Q
  /\ averageRating (mkDb [] [] held 0) "1"
     = (5254199565265579 # 1125899906842624)%Q
  /\ ~ (DataContext.getStoreAverageRating held "1" == mean (values_of "1" held))%Q
  /\ ~ (averageRating (mkDb [] [] held 0) "1" == mean (values_of "1" held))%Q.
Proof.
  intros held. split; [reflexivity|]. split; [reflexivity|]. split; [reflexivity|].
  split; intros E; vm_compute in E; discriminate.
Qed.

(** Against C9 as written: the demo has no store ["9"], and the request is
    not answered 404 but rejected with the foreign-key error. *)
Lemma unknown_store_not_404 :
  has_store Demo.db "9" = false
  /\ fst (submitRating 100 (Demo.rate "t-user" "9" 3) Demo.db) = Throws P2003
  /\ ~ exists b, fst (submitRating 100 (Demo.rate "t-user" "9" 3) Demo.db)
                 = Respond 404 b.
Proof.
  split; [reflexivity|]. split; [reflexivity|].
  intros [b E]. vm_compute in E. discriminate.
Qed.

(** Against C10 as written: a valid token and a non-empty password, but
    the path names no account; the update is rejected and nothing is
    stored, so the request does not report success. *)
Lemma updatePassword_unknown_target :
  has_user Demo.db "9" = false
  /\ updatePassword "salt"
       (mkRequest (Some "Bearer t-user") "9" [] [("newPassword", Js.JString "Secret#1")])
       Demo.db
     = (Throws P2025, Demo.db).
Proof. split; reflexivity. Qed.

(** ** Instances *)

Lemma submitRating_twice_one_row_witness :
  exists r1 r2 db1 db2,
    submitRating 10 (Demo.rate "t-user" "1" 4) Demo.empty_db
    = (Respond 200 (RatingBody r1), db1)
    /\ rows db1 "3" "1" = [r1]
    /\ (rows Demo.empty_db "3" "1" = [] ->
        r1 = mkRating (cuid (idSeed Demo.empty_db)) "3" "1" 4 10)
    /\ submitRating 20 (Demo.rate "t-user" "1" 2) db1
       = (Respond 200 (RatingBody r2), db2)
    /\ rows db2 "3" "1" = [r2]
    /\ rating_value r2 = 2
    /\ rating_id r2 = rating_id r1
    /\ rating_createdAt r2 = rating_createdAt r1.
Proof.
  apply (submitRating_twice_one_row Demo.empty_db "3" normal_user "1" 4 2 10 20
           (Demo.rate "t-user" "1" 4) (Demo.rate "t-user" "1" 2)).
  - intros u s. simpl. lia.
  - constructor.
  - reflexivity.
  - reflexivity.
  - intros _ [].
  - lia.
  - lia.
  - repeat split.
  - repeat split.
Defined.


Lemma average_rating_is_rounded_mean_witness :
  DataContext.getStoreAverageRating (DataContext.initialRatings 0) "1"
  = Js.double (mean [4; 5])
  /\ averageRating Demo.db "1" = Js.double (mean [4; 5])
  /\ DataContext.getStoreAverageRating (DataContext.initialRatings 0) "7" = 0%Q
  /\ averageRating Demo.db "7" = 0%Q.
Proof.
  destruct (average_rating_is_rounded_mean (DataContext.initialRatings 0) Demo.db "1")
    as (_ & _ & Hheld & Hdb).
  destruct (average_rating_is_rounded_mean (DataContext.initialRatings 0) Demo.db "7")
    as (Hheld0 & Hdb0 & _).
  split; [|split; [|split]].
  - apply Hheld; [discriminate|vm_compute; reflexivity].
  - apply Hdb; [discriminate|vm_compute; reflexivity].
  - apply Hheld0. reflexivity.
  - apply Hdb0. reflexivity.
Defined.


Lemma submitRating_unknown_store_witness :
  snd (submitRating 100 (Demo.rate "t-user" "9" 3) Demo.db) = Demo.db
  /\ fst (submitRating 100 (Demo.rate "t-user" "9" 3) Demo.db) = Throws P2003.
Proof.
  destruct (submitRating_unknown_store 100 (Demo.rate "t-user" "9" 3) Demo.db
              (mkPayload "3" normal_user))
    as (Hdb & _ & _ & _ & Hfk).
  - reflexivity.
  - intros r [<-|[<-|[<-|[]]]]; split; reflexivity.
  - reflexivity.
  - split; [exact Hdb|]. apply (Hfk 3); [reflexivity|lia|].
    unfold fresh_id. simpl. intros [E|[E|[E|[]]]]; discriminate.
Defined.

Lemma updatePassword_any_target_witness :
  (exists db',
     updatePassword "salt"
       (mkRequest (Some "Bearer t-user") "1" [] [("newPassword", Js.JString "Secret#1")])
       Demo.db
     = (Respond 200 SuccessBody, db')
     /\ Forall2 (password_set "1" "salt$Secret#1") (users Demo.db) (users db'))
  /\ (forall b,
        fst (updatePassword "salt"
               (mkRequest (Some "Bearer t-user") "1" [] [("newPassword", Js.JString "Secret#1")])
               Demo.db)
        <> Respond 403 b).
Proof.
  destruct (updatePassword_any_target "salt"
              (mkRequest (Some "Bearer t-user") "1" [] [("newPassword", Js.JString "Secret#1")])
              Demo.db (mkPayload "3" normal_user) "Secret#1")
    as (Hset & _ & Hnever).
  - reflexivity.
  - reflexivity.
  - discriminate.
  - split; [apply Hset; reflexivity|exact Hnever].
Defined.

(** * Further properties of the server *)

Lemma submitRating_keeps_constraints_witness :
  unique_index (snd (submitRating 7 (Demo.rate "t-user" "1" 4) Demo.empty_db))
  /\ primary_key (snd (submitRating 7 (Demo.rate "t-user" "1" 4) Demo.empty_db)).
Proof.
  apply (submitRating_keeps_constraints 7 (Demo.rate "t-user" "1" 4) Demo.empty_db).
  - intros u s. simpl. lia.
  - constructor.
Defined.

Lemma submitRating_statuses_witness :
  200%nat = 200%nat \/ 200%nat = 400%nat \/ 200%nat = 401%nat.
Proof.
  apply (submitRating_statuses 7 (Demo.rate "t-user" "1" 4) Demo.empty_db 200
           (RatingBody (mkRating "c0" "3" "1" 4 7))).
  reflexivity.
Defined.

Lemma admin_listStores_search_witness :
  listStores (mkRequest (Some "Bearer t-admin") "" [("q", "ORGANIC")] []) Demo.db
  = Throws ClientValidation
  /\ admin_listStores (mkRequest (Some "Bearer t-admin") "" [("q", "ORGANIC")] []) Demo.db
     = Throws ClientValidation
  /\ exists listed,
       admin_listStores (mkRequest (Some "Bearer t-admin") "" [] []) Demo.db
       = Respond 200 (StoresBody listed)
       /\ forall st, In st (map sj_store listed) <-> In st (stores Demo.db).
Proof.
  destruct (admin_listStores_search
              (mkRequest (Some "Bearer t-admin") "" [("q", "ORGANIC")] []) Demo.db
              (mkPayload "1" admin)) as [_ Hthrows]; [reflexivity|].
  destruct (Hthrows "ORGANIC") as [Hall Hadmin]; [reflexivity|discriminate|].
  destruct (admin_listStores_search
              (mkRequest (Some "Bearer t-admin") "" [] []) Demo.db
              (mkPayload "1" admin)) as [Hplain _]; [reflexivity|].
  split; [exact Hall|]. split; [apply Hadmin; reflexivity|].
  apply Hplain; try reflexivity. left. reflexivity.
Defined.

Lemma head_updateRating_rows_witness :
  DataContext.rows_for "3" "1"
    (DataContext.Head.ratings
       (DataContext.Head.updateRating 9 None "1" 2
          (DataContext.Head.mkWorld (DataContext.initialRatings 0) Demo.db)))
  = S (DataContext.rows_for "3" "1" (DataContext.initialRatings 0)).
Proof.
  apply (head_updateRating_rows 9 "1" 2
           (DataContext.Head.mkWorld (DataContext.initialRatings 0) Demo.db)
           (mkRating "1" "3" "1" 4 0)).
  reflexivity.
Defined.

Lemma replace_bearer (tok : string) :
  Js.replace "Bearer " "" ("Bearer " ++ tok) = tok.
Proof. reflexivity. Qed.

Section Access.
Context `{Externals} `{AuthLib}.

Lemma authMiddleware_refuses req :
  (forall h, authorization req = Some h ->
             verifyToken (Js.replace "Bearer " "" h) = None) ->
  authMiddleware req = inl unauthorized.
Proof.
  intros Hbad. unfold authMiddleware.
  destruct (authorization req) as [h|]; [|reflexivity].
  destruct (String.eqb h ""); [reflexivity|].
  now rewrite (Hbad h eq_refl).
Qed.

(** Without a header, or with one whose token does not verify, every
    handler behind [authMiddleware] answers 401 [unauthorized] and leaves
    the database as it was. *)
Theorem protected_handlers_need_token now salt req db :
  (forall h, authorization req = Some h ->
             verifyToken (Js.replace "Bearer " "" h) = None) ->
  updatePassword salt req db = (unauthorized, db)
  /\ submitRating now req db = (unauthorized, db)
  /\ admin_listUsers req db = unauthorized
  /\ admin_listStores req db = unauthorized
  /\ listStores req db = unauthorized
  /\ Accounts.admin_stats req db = Accounts.Refuse 401 "unauthorized"
  /\ Accounts.admin_addUser now salt req db = (Accounts.Refuse 401 "unauthorized", db)
  /\ Accounts.admin_addStore now req db = (Accounts.Refuse 401 "unauthorized", db)
  /\ Accounts.owner_stores req db = Accounts.Refuse 401 "unauthorized".
Proof.
  intros Hbad. pose proof (authMiddleware_refuses req Hbad) as E.
  unfold updatePassword, submitRating, submitRating_lookup, admin_listUsers,
    admin_listStores, listStores, Accounts.admin_stats, Accounts.admin_addUser,
    Accounts.admin_addStore, Accounts.owner_stores.
  rewrite E. repeat split.
Qed.

(** A caller whose role is not [admin] is answered 403 [forbidden] by the
    five admin handlers, and one whose role is not [store_owner] by the
    owner dashboard; nothing is stored. *)
Theorem role_gates now salt req db me :
  authMiddleware req = inr me ->
  (payload_role me <> admin ->
   admin_listUsers req db = forbidden
   /\ admin_listStores req db = forbidden
   /\ Accounts.admin_stats req db = Accounts.Refuse 403 "forbidden"
   /\ Accounts.admin_addUser now salt req db = (Accounts.Refuse 403 "forbidden", db)
   /\ Accounts.admin_addStore now req db = (Accounts.Refuse 403 "forbidden", db))
  /\ (payload_role me <> store_owner ->
      Accounts.owner_stores req db = Accounts.Refuse 403 "forbidden").
Proof.
  intros E. unfold admin_listUsers, admin_listStores, Accounts.admin_stats,
    Accounts.admin_addUser, Accounts.admin_addStore, Accounts.owner_stores.
  rewrite E. split; intros Hrole; destruct (payload_role me); try congruence;
    repeat split.
Qed.

End Access.

Lemma protected_handlers_need_token_witness :
  updatePassword "salt" (Demo.rate "forged" "1" 4) Demo.db = (unauthorized, Demo.db)
  /\ submitRating 7 (Demo.rate "forged" "1" 4) Demo.db = (unauthorized, Demo.db).
Proof.
  destruct (protected_handlers_need_token (H0 := DemoAuth.lib) 7 "salt"
              (Demo.rate "forged" "1" 4) Demo.db) as (Hp & Hr & _).
  - intros h E. injection E as <-. reflexivity.
  - split; assumption.
Defined.

Lemma role_gates_witness :
  admin_listUsers (Demo.rate "t-user" "1" 4) Demo.db = forbidden
  /\ Accounts.owner_stores (Demo.rate "t-user" "1" 4) Demo.db
     = Accounts.Refuse 403 "forbidden".
Proof.
  destruct (role_gates (H0 := DemoAuth.lib) 7 "salt" (Demo.rate "t-user" "1" 4)
              Demo.db (mkPayload "3" normal_user)) as (Ha & Ho).
  - reflexivity.
  - split; [apply Ha; discriminate|apply Ho; discriminate].
Defined.

(** ** Accounts *)

Import Facts.

Lemma find_none_existsb {A} (f : A -> bool) (l : list A) :
  find f l = None <-> existsb f l = false.
Proof.
  induction l as [|x l IH]; simpl; [tauto|].
  destruct (f x); simpl; [split; discriminate|exact IH].
Qed.

Lemma find_snoc {A} (f : A -> bool) (l : list A) (x : A) :
  find f l = None -> f x = true -> find f (l ++ [x]) = Some x.
Proof.
  induction l as [|y l IH]; simpl; intros Hn Hx.
  - now rewrite Hx.
  - destruct (f y); [discriminate|auto].
Qed.

Lemma find_In_some {A} (f : A -> bool) (l : list A) (x : A) :
  In x l -> f x = true -> exists y, find f l = Some y.
Proof.
  intros Hin Hx. destruct (find f l) as [y|] eqn:F; [eauto|].
  rewrite (find_none _ _ F x Hin) in Hx. discriminate.
Qed.

Lemma existsb_not_In {A B} (g : A -> B) (eqb : B -> B -> bool) (k : B) (l : list A) :
  (forall a b, eqb a b = true <-> a = b) ->
  existsb (fun r => eqb (g r) k) l = false -> ~ In k (map g l).
Proof.
  intros Heq Hex Hin. apply in_map_iff in Hin as (x & Hx & Hin).
  rewrite existsb_forall in Hex. specialize (Hex x Hin).
  assert (eqb (g x) k = true) by now apply Heq. congruence.
Qed.

Section AccountHandlers.
Context `{Externals} `{AuthLib}.

(** What a create of a user does to the table. *)
Lemma user_create_inr now db n e a p role db' row :
  user_create now db n e a p role = inr (db', row) ->
  row = mkUserRow (mkUser (cuid (idSeed db)) n e a role now) p
  /\ users db' = (users db ++ [row])%list
  /\ stores db' = stores db /\ ratings db' = ratings db
  /\ idSeed db' = S (idSeed db)
  /\ ~ In e (map (fun r => user_email (row_user r)) (users db))
  /\ ~ In (cuid (idSeed db)) (map (fun r => user_id (row_user r)) (users db)).
Proof.
  unfold user_create.
  destruct (existsb (fun r => String.eqb (user_id (row_user r)) (cuid (idSeed db)))
                    (users db)) eqn:Eid; [discriminate|].
  destruct (existsb (fun r => String.eqb (user_email (row_user r)) e)
                    (users db)) eqn:Eem; [discriminate|].
  cbv zeta. intros E. injection E as <- <-. simpl. repeat split.
  - apply (existsb_not_In _ String.eqb _ _ String.eqb_eq Eem).
  - apply (existsb_not_In _ String.eqb _ _ String.eqb_eq Eid).
Qed.

(** Whatever the request, signing up touches neither stores nor ratings,
    adds no account with a role other than [normal_user] (a [role] in the
    body is not read), and keeps the emails of the accounts distinct. *)
Theorem signup_adds_normal_users_only now salt req db :
  stores (snd (Accounts.signup now salt req db)) = stores db
  /\ ratings (snd (Accounts.signup now salt req db)) = ratings db
  /\ (forall row, In row (users (snd (Accounts.signup now salt req db))) ->
        In row (users db) \/ user_role (row_user row) = normal_user)
  /\ (unique_emails db -> unique_emails (snd (Accounts.signup now salt req db))).
Proof.
  unfold Accounts.signup.
  destruct (Validators.signupSchema_safeParse (body req)) as [d|]; [|simpl; auto].
  destruct (user_findUnique_email db (Validators.su_email d)); [simpl; auto|].
  destruct (user_create _ _ _ _ _ _ _) as [e|[db' row]] eqn:C; [simpl; auto|].
  apply user_create_inr in C as (-> & Hu & Hs & Hr & _ & Hem & _). simpl.
  repeat split; auto.
  - intros row. rewrite Hu, in_app_iff. simpl. intros [Hin|[<-|[]]]; auto.
  - unfold unique_emails. rewrite Hu, map_app. simpl. intros Hnd.
    now apply NoDup_snoc.
Qed.

(** An admin may add an account of any role; the emails stay distinct,
    and stores and ratings are not touched. *)
Theorem admin_addUser_keeps_emails now salt req db :
  stores (snd (Accounts.admin_addUser now salt req db)) = stores db
  /\ ratings (snd (Accounts.admin_addUser now salt req db)) = ratings db
  /\ (unique_emails db ->
      unique_emails (snd (Accounts.admin_addUser now salt req db))).
Proof.
  unfold Accounts.admin_addUser.
  destruct (authMiddleware req) as [r|me]; [simpl; auto|].
  destruct (negb _); [simpl; auto|].
  destruct (Validators.addUserSchema_safeParse (body req)) as [[d role]|]; [|simpl; auto].
  destruct (user_findUnique_email db (Validators.su_email d)); [simpl; auto|].
  destruct (user_create _ _ _ _ _ _ _) as [e|[db' row]] eqn:C; [simpl; auto|].
  apply user_create_inr in C as (-> & Hu & Hs & Hr & _ & Hem & _). simpl.
  repeat split; auto.
  unfold unique_emails. rewrite Hu, map_app. simpl. intros Hnd.
  now apply NoDup_snoc.
Qed.

(** An email that an account already has is answered 409 [email_exists],
    by the sign-up and by the admin's form alike, and nothing is stored. *)
Theorem taken_email_is_refused now salt req db d row :
  Validators.signupSchema_safeParse (body req) = Some d ->
  In row (users db) -> user_email (row_user row) = Validators.su_email d ->
  Accounts.signup now salt req db = (Accounts.Refuse 409 "email_exists", db)
  /\ (forall me role,
        authMiddleware req = inr me -> payload_role me = admin ->
        Validators.addUserSchema_safeParse (body req) = Some (d, role) ->
        Accounts.admin_addUser now salt req db
        = (Accounts.Refuse 409 "email_exists", db)).
Proof.
  intros Hp Hin Hem.
  destruct (find_In_some (fun r => String.eqb (user_email (row_user r))
                                              (Validators.su_email d))
                         (users db) row Hin) as [y Hy].
  { rewrite Hem. apply String.eqb_refl. }
  split.
  - unfold Accounts.signup. rewrite Hp. unfold user_findUnique_email.
    rewrite Hy. reflexivity.
  - intros me role Ha Hr Hp'. unfold Accounts.admin_addUser.
    rewrite Ha, Hr, Hp'. simpl. unfold user_findUnique_email.
    rewrite Hy. reflexivity.
Qed.

Lemma passwordSchema_nonempty p :
  Validators.passwordSchema p = true -> (1 <=? String.length p)%nat = true.
Proof.
  unfold Validators.passwordSchema. rewrite !andb_true_iff, !Nat.leb_le.
  intros [[[Hmin _] _] _]. lia.
Qed.

Lemma signup_parse_fields b d :
  Validators.signupSchema_safeParse b = Some d ->
  Validators.string_prop "email" b = Some (Validators.su_email d)
  /\ Validators.string_prop "password" b = Some (Validators.su_password d)
  /\ isEmail (Validators.su_email d) = true
  /\ Validators.passwordSchema (Validators.su_password d) = true.
Proof.
  unfold Validators.signupSchema_safeParse.
  destruct (Validators.string_prop "name" b) as [n|]; [|discriminate].
  destruct (Validators.string_prop "email" b) as [e|]; [|discriminate].
  destruct (Validators.string_prop "address" b) as [a|]; [|discriminate].
  destruct (Validators.string_prop "password" b) as [p|]; [|discriminate].
  destruct (_ && _) eqn:V; [|discriminate]. intros E. injection E as <-. simpl.
  rewrite !andb_true_iff in V. tauto.
Qed.

(** Sign up, then log in with the same email and password: the login is
    answered with the account the sign-up created, provided the hash
    library accepts a password against its own hash. *)
Theorem signup_then_login now salt req db session db' later req' :
  (forall p, Validators.string_prop "password" (body req) = Some p ->
             bcrypt_compare p (bcrypt_hash p salt) = true) ->
  Accounts.signup now salt req db = (Accounts.Json session, db') ->
  Validators.string_prop "email" (body req')
  = Validators.string_prop "email" (body req) ->
  Validators.string_prop "password" (body req')
  = Validators.string_prop "password" (body req) ->
  Accounts.login later req' db'
  = Accounts.Json
      (Accounts.mkSession
         (signToken (payload_of (Accounts.session_user session)) later)
         (Accounts.session_user session))
    /\ user_role (Accounts.session_user session) = normal_user.
Proof.
  intros Hbc Hs He Hp. unfold Accounts.signup in Hs.
  destruct (Validators.signupSchema_safeParse (body req)) as [d|] eqn:P; [|discriminate].
  destruct (user_findUnique_email db (Validators.su_email d)) eqn:F; [discriminate|].
  destruct (user_create _ _ _ _ _ _ _) as [e|[db1 row]] eqn:C; [discriminate|].
  injection Hs as <- <-.
  apply user_create_inr in C as (-> & Hu & _).
  apply signup_parse_fields in P as (Pe & Pp & Ve & Vp).
  unfold Accounts.login, Validators.loginSchema_safeParse.
  rewrite He, Hp, Pe, Pp, Ve, (passwordSchema_nonempty _ Vp). simpl.
  unfold user_findUnique_email in *. rewrite Hu.
  rewrite (find_snoc _ _ _ F) by (simpl; apply String.eqb_refl).
  simpl. unfold Accounts.hashPassword. rewrite (Hbc _ Pp). split; reflexivity.
Qed.

(** A login is answered with a session only for an account that has the
    given email and whose stored hash the password matches; every other
    well-formed attempt gets the same 401 [invalid_credentials], whether
    the email is unknown or the password wrong. *)
Theorem login_needs_matching_hash now req db email pwd :
  Validators.loginSchema_safeParse (body req) = Some (email, pwd) ->
  (exists row,
     In row (users db) /\ user_email (row_user row) = email
     /\ bcrypt_compare pwd (row_password row) = true
     /\ Accounts.login now req db
        = Accounts.Json (Accounts.mkSession (signToken (payload_of (row_user row)) now)
                                            (row_user row)))
  \/ Accounts.login now req db = Accounts.Refuse 401 "invalid_credentials".
Proof.
  intros P. unfold Accounts.login. rewrite P.
  destruct (user_findUnique_email db email) as [row|] eqn:F; [|now right].
  destruct (bcrypt_compare pwd (row_password row)) eqn:B; [|now right].
  left. exists row. apply find_some in F as [Hin He].
  apply String.eqb_eq in He. auto.
Qed.

(** The admin's store form takes any existing account as the owner,
    whatever its role; an owner id that no account has makes the create
    fail on the foreign key, and the handler rejects. *)
Theorem admin_addStore_owner now req db me d :
  authMiddleware req = inr me -> payload_role me = admin ->
  Validators.addStoreSchema_safeParse (body req) = Some d ->
  fresh_store_id db ->
  (has_user db (Validators.sd_ownerId d) = true ->
   let s := mkStore (cuid (idSeed db)) (Validators.sd_name d)
                    (Validators.sd_address d) (Validators.sd_ownerId d) now in
   Accounts.admin_addStore now req db
   = (Accounts.Json s,
      mkDb (users db) (stores db ++ [s]) (ratings db) (S (idSeed db))))
  /\ (has_user db (Validators.sd_ownerId d) = false ->
      Accounts.admin_addStore now req db = (Accounts.Reject P2003, db)).
Proof.
  intros Ha Hr P Hf. unfold Accounts.admin_addStore, store_create.
  rewrite Ha, Hr, P. simpl.
  assert (E : existsb (fun s => String.eqb (store_id s) (cuid (idSeed db))) (stores db)
              = false).
  { apply existsb_forall. intros x Hin.
    destruct (String.eqb_spec (store_id x) (cuid (idSeed db))) as [E|]; [|reflexivity].
    exfalso. apply Hf. rewrite <- E. now apply in_map. }
  rewrite E. split; intros Hu; rewrite Hu; reflexivity.
Qed.

(** The owner dashboard of the server lists exactly the stores of the
    caller; each comes with exactly the ratings of that store, their
    count, and for each rating the whole stored row of its user. *)
Theorem owner_stores_are_own req db me :
  authMiddleware req = inr me -> payload_role me = store_owner ->
  exists listed,
    Accounts.owner_stores req db = Accounts.Json listed
    /\ map Accounts.os_store listed
       = filter (fun s => String.eqb (store_ownerId s) (payload_id me)) (stores db)
    /\ forall e, In e listed ->
         map fst (Accounts.os_ratings e)
         = filter (fun r => String.eqb (rating_storeId r) (store_id (Accounts.os_store e)))
                  (ratings db)
         /\ Accounts.os_totalRatings e = rating_count db (store_id (Accounts.os_store e))
         /\ Accounts.os_averageRating e = averageRating db (store_id (Accounts.os_store e))
         /\ forall r row, In (r, Some row) (Accounts.os_ratings e) ->
              In row (users db) /\ user_id (row_user row) = rating_userId r.
Proof.
  intros Ha Hr. unfold Accounts.owner_stores. rewrite Ha, Hr. simpl.
  eexists. split; [reflexivity|]. split.
  - rewrite map_map. simpl. apply map_id.
  - intros e Hin. apply in_map_iff in Hin as (s & <- & _). simpl.
    unfold rating_findMany_store, rating_count. rewrite map_map, length_map. simpl.
    split; [apply map_id|]. split; [reflexivity|]. split; [reflexivity|].
    intros r row Hin. apply in_map_iff in Hin as (r' & E & _).
    injection E as -> F. apply find_some in F as [Hin He].
    apply String.eqb_eq in He. auto.
Qed.

Lemma has_user_In db u :
  has_user db u = true -> In u (map (fun r => user_id (row_user r)) (users db)).
Proof.
  unfold has_user. rewrite existsb_exists. intros (x & Hin & E).
  apply String.eqb_eq in E. subst u. now apply in_map with (f := fun r => user_id (row_user r)).
Qed.

Lemma authMiddleware_bearer tok req p :
  verifyToken tok = Some p -> authMiddleware (with_token tok req) = inr p.
Proof.
  intros V. unfold authMiddleware, with_token. cbn [authorization].
  change (String.eqb ("Bearer " ++ tok) "") with false. cbv iota.
  rewrite replace_bearer, V. reflexivity.
Qed.

(** Sign up, then rate with the token of the answer: the request is
    taken as coming from the new account, and the store gets its first
    row from it.  The token must verify to the identity it was signed
    for, the ratings of the database must refer to accounts that exist,
    and the next id must be new to the ratings. *)
Theorem signup_then_rate now salt req db session db' later rate s v :
  Accounts.signup now salt req db = (Accounts.Json session, db') ->
  verifyToken (Accounts.token session)
  = Some (payload_of (Accounts.session_user session)) ->
  foreign_keys db -> has_store db s = true ->
  ~ In (cuid (S (idSeed db))) (map rating_id (ratings db)) ->
  params_id rate = s ->
  Js.prop "rating" (body rate) = Js.JNumber (inject_Z v) -> 1 <= v <= 5 ->
  exists r db'',
    submitRating later (with_token (Accounts.token session) rate) db'
    = (Respond 200 (RatingBody r), db'')
    /\ r = mkRating (cuid (S (idSeed db))) (user_id (Accounts.session_user session))
                    s v later
    /\ rows db'' (user_id (Accounts.session_user session)) s = [r].
Proof.
  intros Hs Hv Hfk Hst Hfresh Hp Hb Hrange. unfold Accounts.signup in Hs.
  destruct (Validators.signupSchema_safeParse (body req)) as [d|]; [|discriminate].
  destruct (user_findUnique_email db (Validators.su_email d)); [discriminate|].
  destruct (user_create _ _ _ _ _ _ _) as [e|[db1 row]] eqn:C; [discriminate|].
  injection Hs as <- <-.
  apply user_create_inr in C as (-> & Hu & Hstores & Hratings & Hseed & _ & Hnew).
  simpl in *.
  set (uid := cuid (idSeed db)) in *.
  assert (Hrows : rows db1 uid s = []).
  { unfold rows. rewrite Hratings.
    destruct (filter _ (ratings db)) as [|r l] eqn:F; [reflexivity|exfalso].
    assert (Hin : In r (filter (pair_eqb uid s) (ratings db))) by (rewrite F; now left).
    apply filter_In in Hin as [Hin Hpair]. apply pair_eqb_true in Hpair as [Hru _].
    destruct (Hfk r Hin) as [Hhas _]. rewrite Hru in Hhas.
    apply Hnew. now apply has_user_In. }
  assert (Hreq : rates (with_token
                          (signToken (mkPayload uid normal_user) now) rate)
                       uid normal_user s v).
  { split; [|split; assumption]. now apply authMiddleware_bearer. }
  pose proof (submitRating_absent later _ db1 uid normal_user s v Hreq Hrange Hrows) as E.
  rewrite Hseed, Hratings, Hstores in E.
  eexists. eexists. split; [apply E|].
  - unfold fresh_id. now rewrite Hseed, Hratings.
  - unfold has_user. rewrite Hu, existsb_app. simpl.
    unfold uid. rewrite String.eqb_refl. apply orb_true_r.
  - unfold has_store. now rewrite Hstores.
  - split; [reflexivity|]. unfold rows at 1. simpl. rewrite rows_app.
    unfold rows in Hrows. rewrite Hratings in Hrows. unfold rows. rewrite Hrows. simpl.
    unfold pair_eqb. simpl. rewrite !String.eqb_refl. reflexivity.
Qed.

(** The rating count of the admin's statistics grows by one with the
    first rating of a pair and stays as it is when a pair is rated again;
    the counts of users and stores do not move. *)
Theorem stats_count_each_pair_once now req db u role s v areq me :
  rates req u role s v -> 1 <= v <= 5 ->
  unique_index db -> primary_key db ->
  has_user db u = true -> has_store db s = true ->
  authMiddleware areq = inr me -> payload_role me = admin ->
  (rows db u s = [] -> fresh_id db ->
   Accounts.admin_stats areq (snd (submitRating now req db))
   = Accounts.Json (Accounts.mkStats (List.length (users db)) (List.length (stores db))
                                     (S (List.length (ratings db)))))
  /\ (rows db u s <> [] ->
      Accounts.admin_stats areq (snd (submitRating now req db))
      = Accounts.Json (Accounts.mkStats (List.length (users db)) (List.length (stores db))
                                        (List.length (ratings db)))).
Proof.
  intros Hreq Hv Huq Hpk Hu Hs Ha Hr. unfold Accounts.admin_stats.
  rewrite Ha, Hr. simpl. split.
  - intros Hrows Hf.
    rewrite (submitRating_absent now req db u role s v Hreq Hv Hrows Hf Hu Hs). simpl.
    rewrite length_app. simpl. rewrite Nat.add_1_r. reflexivity.
  - intros Hrows. destruct (rows db u s) as [|r rest] eqn:E; [congruence|].
    assert (rest = []) as ->.
    { specialize (Huq u s). rewrite E in Huq. simpl in Huq.
      destruct rest; [reflexivity|simpl in Huq; lia]. }
    destruct (submitRating_present now req db u role s v r Hreq Hv Hpk E)
      as (db' & E' & _ & Hids & Hus & Hst & _).
    rewrite E'. simpl. rewrite Hus, Hst.
    rewrite <- (length_map rating_id (ratings db')), Hids, length_map. reflexivity.
Qed.

End AccountHandlers.

(** *** The account statements on the demo *)

#[local] Existing Instance DemoAuth.lib.

Lemma signup_adds_normal_users_only_witness :
  unique_emails (snd (Accounts.signup 5 "salt" DemoAuth.newcomer Demo.db))
  /\ map (fun r => user_role (row_user r))
         (users (snd (Accounts.signup 5 "salt" DemoAuth.newcomer Demo.db)))
     = [admin; store_owner; normal_user; normal_user; normal_user].
Proof.
  destruct (signup_adds_normal_users_only 5 "salt" DemoAuth.newcomer Demo.db)
    as (_ & _ & _ & Huq).
  split; [|reflexivity]. apply Huq.
  unfold unique_emails. simpl.
  repeat (constructor; [simpl; intuition discriminate|]). constructor.
Defined.

Lemma admin_addUser_keeps_emails_witness :
  unique_emails
    (snd (Accounts.admin_addUser 5 "salt"
            (DemoAuth.by_admin "t-admin" (body DemoAuth.newcomer)) Demo.db)).
Proof.
  destruct (admin_addUser_keeps_emails 5 "salt"
              (DemoAuth.by_admin "t-admin" (body DemoAuth.newcomer)) Demo.db)
    as (_ & _ & Huq).
  apply Huq. unfold unique_emails. simpl.
  repeat (constructor; [simpl; intuition discriminate|]). constructor.
Defined.

Lemma taken_email_is_refused_witness :
  Accounts.signup 5 "salt"
    (mkRequest None "" []
       [("name", Js.JString "A Perfectly Ordinary Name");
        ("email", Js.JString "user@storerating.com");
        ("address", Js.JString "1 Main Street");
        ("password", Js.JString "Secret#12")])
    Demo.db
  = (Accounts.Refuse 409 "email_exists", Demo.db).
Proof.
  apply (taken_email_is_refused 5 "salt"
           (mkRequest None "" []
              [("name", Js.JString "A Perfectly Ordinary Name");
               ("email", Js.JString "user@storerating.com");
               ("address", Js.JString "1 Main Street");
               ("password", Js.JString "Secret#12")])
           Demo.db
           (Validators.mkSignupData "A Perfectly Ordinary Name" "user@storerating.com"
                                    "1 Main Street" "Secret#12")
           (mkUserRow (mkUser "3" "Normal User Demo Account" "user@storerating.com"
                              "789 Customer Lane, Shopville, SV 11223" normal_user 0)
                      "$")).
  - reflexivity.
  - simpl. auto.
  - reflexivity.
Defined.

Lemma signup_then_login_witness :
  Accounts.login 9 DemoAuth.newcomer
    (snd (Accounts.signup 5 "salt" DemoAuth.newcomer Demo.db))
  = Accounts.Json
      (Accounts.mkSession "normal_user:c0"
         (mkUser "c0" "A Perfectly Ordinary Name" "new@example.com" "1 Main Street"
                 normal_user 5)).
Proof.
  refine (proj1 (signup_then_login 5 "salt" DemoAuth.newcomer Demo.db
           (Accounts.mkSession "normal_user:c0"
              (mkUser "c0" "A Perfectly Ordinary Name" "new@example.com"
                      "1 Main Street" normal_user 5))
           (snd (Accounts.signup 5 "salt" DemoAuth.newcomer Demo.db))
           9 DemoAuth.newcomer _ _ _ _)).
  - intros p E. injection E as <-. reflexivity.
  - reflexivity.
  - reflexivity.
  - reflexivity.
Defined.

Lemma login_needs_matching_hash_witness :
  Accounts.login 9
    (mkRequest None "" []
       [("email", Js.JString "user@storerating.com"); ("password", Js.JString "guess")])
    Demo.db
  = Accounts.Refuse 401 "invalid_credentials".
Proof.
  destruct (login_needs_matching_hash 9
              (mkRequest None "" []
                 [("email", Js.JString "user@storerating.com");
                  ("password", Js.JString "guess")])
              Demo.db "user@storerating.com" "guess")
    as [(row & _ & _ & _ & E)|E].
  - reflexivity.
  - vm_compute in E. discriminate.
  - exact E.
Defined.

Lemma admin_addStore_owner_witness :
  Accounts.admin_addStore 5
    (DemoAuth.by_admin "t-admin"
       [("name", Js.JString "A Store Run By A Customer");
        ("address", Js.JString "2 Side Street");
        ("ownerId", Js.JString "3")])
    Demo.db
  = (Accounts.Json (mkStore "c0" "A Store Run By A Customer" "2 Side Street" "3" 5),
     mkDb (users Demo.db)
          (stores Demo.db
           ++ [mkStore "c0" "A Store Run By A Customer" "2 Side Street" "3" 5])
          (ratings Demo.db) 1).
Proof.
  destruct (admin_addStore_owner 5
           (DemoAuth.by_admin "t-admin"
              [("name", Js.JString "A Store Run By A Customer");
               ("address", Js.JString "2 Side Street");
               ("ownerId", Js.JString "3")])
           Demo.db (mkPayload "1" admin)
           (Validators.mkStoreData "A Store Run By A Customer" "2 Side Street" "3"))
    as (Hknown & _).
  - reflexivity.
  - reflexivity.
  - reflexivity.
  - unfold fresh_store_id. simpl. intuition discriminate.
  - apply Hknown. reflexivity.
Defined.

Lemma owner_stores_are_own_witness :
  exists listed,
    Accounts.owner_stores (DemoAuth.by_admin "t-owner" []) Demo.db
    = Accounts.Json listed
    /\ map Accounts.os_store listed
       = filter (fun s => String.eqb (store_ownerId s) "2") (stores Demo.db).
Proof.
  destruct (owner_stores_are_own (DemoAuth.by_admin "t-owner" []) Demo.db
              (mkPayload "2" store_owner))
    as (listed & E & Hstores & _).
  - reflexivity.
  - reflexivity.
  - exists listed. split; assumption.
Defined.

Lemma signup_then_rate_witness :
  exists r db'',
    submitRating (H := DemoAuth.externals) 9
      (with_token "normal_user:c0" (Demo.rate "" "1" 5))
      (snd (Accounts.signup (H := DemoAuth.externals) 5 "salt" DemoAuth.newcomer Demo.db))
    = (Respond 200 (RatingBody r), db'')
    /\ r = mkRating "c1" "c0" "1" 5 9
    /\ rows db'' "c0" "1" = [r].
Proof.
  apply (signup_then_rate (H := DemoAuth.externals) 5 "salt" DemoAuth.newcomer Demo.db
           (Accounts.mkSession "normal_user:c0"
              (mkUser "c0" "A Perfectly Ordinary Name" "new@example.com"
                      "1 Main Street" normal_user 5))
           (snd (Accounts.signup (H := DemoAuth.externals) 5 "salt"
                   DemoAuth.newcomer Demo.db))
           9 (Demo.rate "" "1" 5) "1" 5).
  - reflexivity.
  - reflexivity.
  - intros r [<-|[<-|[<-|[]]]]; split; reflexivity.
  - reflexivity.
  - simpl. intuition discriminate.
  - reflexivity.
  - reflexivity.
  - lia.
Defined.

Lemma stats_count_each_pair_once_witness :
  Accounts.admin_stats (DemoAuth.by_admin "t-admin" [])
    (snd (submitRating 9 (Demo.rate "t-user" "1" 4) Demo.empty_db))
  = Accounts.Json (Accounts.mkStats 4 2 1).
Proof.
  destruct (stats_count_each_pair_once 9 (Demo.rate "t-user" "1" 4) Demo.empty_db
              "3" normal_user "1" 4 (DemoAuth.by_admin "t-admin" [])
              (mkPayload "1" admin)) as (Hfirst & _).
  - repeat split.
  - lia.
  - intros u s. simpl. lia.
  - constructor.
  - reflexivity.
  - reflexivity.
  - reflexivity.
  - reflexivity.
  - apply Hfirst; [reflexivity|intros []].
Defined.

(** * Further properties of the pages *)

(** ** What a list shows *)

(** The user table of the admin: a user is listed exactly when the term
    occurs, case ignored, in the name, the email or the address, and the
    role is the chosen one (or the filter is [all]). *)
Theorem userManagement_filter users term roleFilter field order x :
  In x (UserManagement.filteredUsers users term roleFilter field order)
  <-> In x users
      /\ (substring_ci term (user_name x) \/ substring_ci term (user_email x)
          \/ substring_ci term (user_address x))
      /\ (roleFilter = "all" \/ role_name (user_role x) = roleFilter).
Proof.
  unfold UserManagement.filteredUsers. rewrite sort_In.
  assert (Hsearch : forall l,
    In x (if String.eqb term "" then l
          else filter (UserManagement.matches (Js.toLowerCase term)) l)
    <-> In x l /\ (substring_ci term (user_name x) \/ substring_ci term (user_email x)
                   \/ substring_ci term (user_address x))).
  { intros l. destruct (String.eqb_spec term "") as [->|_].
    - split; [|tauto]. intros Hin. split; [exact Hin|]. left. apply substring_empty.
    - rewrite filter_In. unfold UserManagement.matches, substring_ci.
      rewrite !orb_true_iff, !includes_spec. tauto. }
  destruct (String.eqb_spec roleFilter "all") as [->|Hne].
  - rewrite Hsearch. tauto.
  - rewrite filter_In, Hsearch, String.eqb_eq. tauto.
Qed.

(** The store list of a normal user searches name and address only. *)
Theorem userStoreList_filter shown term x :
  In x (UserStoreList.filteredStores shown term)
  <-> In x shown
      /\ (substring_ci term (store_name (UserStoreList.store x))
          \/ substring_ci term (store_address (UserStoreList.store x))).
Proof.
  unfold UserStoreList.filteredStores.
  destruct (String.eqb_spec term "") as [->|_].
  - split; [|tauto]. intros Hin. split; [exact Hin|]. left. apply substring_empty.
  - rewrite filter_In. unfold substring_ci.
    rewrite orb_true_iff, !includes_spec. tauto.
Qed.

(** ** Rating from the store list *)

Lemma find_map_same {A} (p : A -> bool) (g : A -> A) (l : list A) :
  (forall x, p (g x) = p x) -> find p (map g l) = option_map g (find p l).
Proof.
  intros Hp. induction l as [|x l IH]; simpl; [reflexivity|].
  rewrite Hp. destruct (p x); [reflexivity|exact IH].
Qed.

Lemma find_map_fixed {A} (p : A -> bool) (g : A -> A) (l : list A) :
  (forall x, p (g x) = p x) -> (forall x, In x l -> p x = true -> g x = x) ->
  find p (map g l) = find p l.
Proof.
  intros Hp Hfix. induction l as [|x l IH]; simpl; [reflexivity|].
  rewrite Hp. destruct (p x) eqn:E.
  - rewrite Hfix; [reflexivity|now left|exact E].
  - apply IH. intros y Hin. apply Hfix. now right.
Qed.

Lemma find_app_other {A} (p : A -> bool) (l : list A) (x : A) :
  p x = false -> find p (l ++ [x]) = find p l.
Proof.
  intros Hx. induction l as [|y l IH]; simpl.
  - now rewrite Hx.
  - destruct (p y); [reflexivity|exact IH].
Qed.

Lemma same_id_same_row (l : list Rating) (x y : Rating) :
  NoDup (map rating_id l) -> In x l -> In y l -> rating_id x = rating_id y -> x = y.
Proof.
  induction l as [|z l IH]; simpl; [tauto|].
  intros Hnd Hx Hy E. inversion Hnd as [|? ? Hz Hnd']; subst.
  destruct Hx as [->|Hx], Hy as [->|Hy]; auto.
  - exfalso. apply Hz. rewrite E. now apply in_map.
  - exfalso. apply Hz. rewrite <- E. now apply in_map.
Qed.

(** Submitting the rating dialog for a store, with a value that is not 0:
    afterwards the rating the list finds for the user and the store has
    that value; a list with at most one rating for every pair stays so;
    and, when the ids of the ratings are distinct, what the list finds for
    any other user or store is what it found before. *)
Theorem handleSubmitRating_records now u sid v held :
  sid <> "" -> v <> 0 ->
  (exists r,
     DataContext.getUserRating
       (UserStoreList.handleSubmitRating now (Some u) (Some sid) v held) (user_id u) sid
     = Some r /\ rating_value r = v)
  /\ (one_rating_each held ->
      one_rating_each (UserStoreList.handleSubmitRating now (Some u) (Some sid) v held))
  /\ (NoDup (map rating_id held) ->
      forall u' s', (u', s') <> (user_id u, sid) ->
        DataContext.getUserRating
          (UserStoreList.handleSubmitRating now (Some u) (Some sid) v held) u' s'
        = DataContext.getUserRating held u' s').
Proof.
  intros Hsid Hv. unfold UserStoreList.handleSubmitRating.
  destruct (String.eqb_spec sid "") as [?|_]; [contradiction|].
  destruct (Z.eqb_spec v 0) as [?|_]; [contradiction|]. simpl.
  destruct (DataContext.getUserRating held (user_id u) sid) as [e|] eqn:F.
  - (* an edit *)
    unfold DataContext.Theirs.updateRating, DataContext.rewrite_rating.
    split; [|split].
    + unfold DataContext.getUserRating in *.
      rewrite find_map_same
        by (intros x; destruct (String.eqb (rating_id x) (rating_id e)); reflexivity).
      rewrite F. simpl. rewrite String.eqb_refl. eexists. split; reflexivity.
    + intros Hone u' s'.
      pose proof (rows_for_rewrite u' s' (rating_id e) v held) as E.
      unfold DataContext.rewrite_rating in E. rewrite E. apply Hone.
    + intros Hnd u' s' Hother. unfold DataContext.getUserRating in *.
      apply find_map_fixed.
      * intros x. destruct (String.eqb (rating_id x) (rating_id e)); reflexivity.
      * intros x Hin Hx.
        destruct (String.eqb_spec (rating_id x) (rating_id e)) as [E|]; [|reflexivity].
        exfalso. apply find_some in F as [Hine He].
        assert (x = e) by (eapply same_id_same_row; eassumption). subst x.
        apply andb_true_iff in Hx as [Hxu Hxs], He as [Heu Hes].
        apply String.eqb_eq in Hxu, Hxs, Heu, Hes. apply Hother. congruence.
  - (* a first rating *)
    unfold DataContext.Theirs.addRating. split; [|split].
    + unfold DataContext.getUserRating in *. eexists.
      rewrite (find_snoc _ _ _ F); [split; reflexivity|].
      simpl. now rewrite !String.eqb_refl.
    + intros Hone u' s'. unfold DataContext.rows_for.
      rewrite filter_app, length_app. simpl.
      destruct (String.eqb_spec u' (user_id u)) as [->|Hu];
        [destruct (String.eqb_spec s' sid) as [->|Hs]|].
      * rewrite !String.eqb_refl. simpl.
        unfold DataContext.getUserRating in F.
        apply find_none_existsb, existsb_false_filter in F. rewrite F. simpl. lia.
      * rewrite (proj2 (String.eqb_neq sid s')) by congruence.
        rewrite andb_false_r. simpl. specialize (Hone (user_id u) s').
        unfold DataContext.rows_for in Hone. lia.
      * rewrite (proj2 (String.eqb_neq (user_id u) u')) by congruence. simpl.
        specialize (Hone u' s'). unfold DataContext.rows_for in Hone. lia.
    + intros _ u' s' Hother. unfold DataContext.getUserRating.
      apply find_app_other. simpl.
      destruct (String.eqb_spec (user_id u) u') as [<-|]; [|reflexivity].
      destruct (String.eqb_spec sid s') as [<-|]; [|reflexivity].
      now elim Hother.
Qed.

Lemma handleSubmitRating_records_witness :
  exists r,
    DataContext.getUserRating
      (UserStoreList.handleSubmitRating 9
         (Some (mkUser "3" "Normal User Demo Account" "user@storerating.com"
                       "789 Customer Lane, Shopville, SV 11223" normal_user 0))
         (Some "1") 2 (DataContext.initialRatings 0))
      "3" "1"
    = Some r /\ rating_value r = 2.
Proof.
  refine (proj1 (handleSubmitRating_records 9
           (mkUser "3" "Normal User Demo Account" "user@storerating.com"
                   "789 Customer Lane, Shopville, SV 11223" normal_user 0)
           "1" 2 (DataContext.initialRatings 0) _ _)); discriminate.
Defined.

(** ** The order of the admin tables *)

Lemma string_compare_refl (s : string) : String.compare s s = Eq.
Proof.
  induction s as [|c s IH]; simpl; [reflexivity|].
  unfold Ascii.compare. now rewrite N.compare_refl.
Qed.

Lemma string_compare_lt_trans (a b c : string) :
  String.compare a b = Lt -> String.compare b c = Lt -> String.compare a c = Lt.
Proof.
  revert b c. induction a as [|x a IH]; intros [|y b] [|z c]; simpl;
    try discriminate; try reflexivity.
  destruct (Ascii.compare x y) eqn:Exy; try discriminate;
    destruct (Ascii.compare y z) eqn:Eyz; try discriminate; intros Hab Hbc.
  - apply Ascii.compare_eq_iff in Exy, Eyz. subst.
    unfold Ascii.compare. rewrite N.compare_refl. eapply IH; eassumption.
  - apply Ascii.compare_eq_iff in Exy. subst. now rewrite Eyz.
  - apply Ascii.compare_eq_iff in Eyz. subst. now rewrite Exy.
  - unfold Ascii.compare in *. rewrite N.compare_lt_iff in *.
    assert (Hlt : (N_of_ascii x < N_of_ascii z)%N) by lia.
    apply N.compare_lt_iff in Hlt. now rewrite Hlt.
Qed.

(** If neither [x < y] nor [y < z], then not [x < z]: for strings. *)
Lemma string_ltb_negtrans (x y z : string) :
  String.ltb x y = false -> String.ltb y z = false -> String.ltb x z = false.
Proof.
  unfold String.ltb. intros Hxy Hyz.
  destruct (String.compare x z) eqn:Exz; try reflexivity. exfalso.
  destruct (String.compare x y) eqn:Exy; try discriminate.
  - apply String.compare_eq_iff in Exy. subst. now rewrite Exz in Hyz.
  - rewrite String.compare_antisym in Exy.
    destruct (String.compare y x) eqn:Eyx; try discriminate.
    rewrite (string_compare_lt_trans y x z Eyx Exz) in Hyz. discriminate.
Qed.

Lemma key_lt_asym (a b : Js.Key) : Js.key_lt a b = true -> Js.key_lt b a = false.
Proof.
  destruct a as [s|p], b as [t|q]; simpl; try discriminate.
  - unfold String.ltb. rewrite (String.compare_antisym t s).
    destruct (String.compare s t); simpl; congruence.
  - rewrite !negb_true_iff, negb_false_iff. intros Hqp.
    apply Qle_bool_iff. apply Qlt_le_weak. apply Qnot_le_lt.
    intros Hle. apply Qle_bool_iff in Hle. congruence.
Qed.

Lemma compare_keys_ordered order a b :
  Js.compare_keys order a b <= 0 <-> ordered order a b.
Proof.
  unfold Js.compare_keys, ordered.
  destruct (Js.key_lt a b) eqn:Eab.
  - rewrite (key_lt_asym _ _ Eab). destruct order; split; intros; try lia; congruence.
  - destruct (Js.key_lt b a); destruct order; split; intros; try lia; congruence.
Qed.

Lemma compare_keys_total order a b :
  0 < Js.compare_keys order a b -> Js.compare_keys order b a <= 0.
Proof.
  unfold Js.compare_keys.
  destruct (Js.key_lt a b) eqn:Eab.
  - rewrite (key_lt_asym _ _ Eab). destruct order; lia.
  - destruct (Js.key_lt b a); destruct order; lia.
Qed.

(** The sort leaves no element directly behind one it should precede. *)
Lemma insert_sorted_Sorted {A} (cmp : A -> A -> Z) (x : A) (l : list A) :
  (forall a b, 0 < cmp a b -> cmp b a <= 0) ->
  Sorted (fun a b => cmp a b <= 0) l ->
  Sorted (fun a b => cmp a b <= 0) (Js.insert_sorted cmp x l).
Proof.
  intros Htot. induction l as [|y l IH]; simpl; intros Hs.
  - repeat constructor.
  - destruct (Z.ltb_spec 0 (cmp x y)) as [Hgt|Hle].
    + inversion Hs as [|? ? Hs' Hhd]; subst. constructor; [now apply IH|].
      destruct l as [|z l]; simpl.
      * constructor. now apply Htot.
      * destruct (0 <? cmp x z); constructor;
          [now inversion Hhd|now apply Htot].
    + constructor; [assumption|]. now constructor.
Qed.

Lemma sort_Sorted {A} (cmp : A -> A -> Z) (l : list A) :
  (forall a b, 0 < cmp a b -> cmp b a <= 0) ->
  Sorted (fun a b => cmp a b <= 0) (Js.sort cmp l).
Proof.
  intros Htot. induction l as [|x l IH]; simpl; [constructor|].
  now apply insert_sorted_Sorted.
Qed.

Lemma ordered_trans_str order (a b c : string) :
  ordered order (Js.KStr a) (Js.KStr b) -> ordered order (Js.KStr b) (Js.KStr c) ->
  ordered order (Js.KStr a) (Js.KStr c).
Proof.
  destruct order; simpl; intros Hab Hbc.
  - exact (string_ltb_negtrans c b a Hbc Hab).
  - exact (string_ltb_negtrans a b c Hab Hbc).
Qed.

Lemma ordered_trans_num order (a b c : Q) :
  ordered order (Js.KNum a) (Js.KNum b) -> ordered order (Js.KNum b) (Js.KNum c) ->
  ordered order (Js.KNum a) (Js.KNum c).
Proof.
  destruct order; simpl; rewrite !negb_false_iff, !Qle_bool_iff; intros Hab Hbc.
  - eapply Qle_trans; eassumption.
  - eapply Qle_trans; eassumption.
Qed.

Lemma sort_by_key_sorted {A} (key : A -> Js.Key) (order : Js.SortOrder) (l : list A) :
  Relations_1.Transitive (fun a b => ordered order (key a) (key b)) ->
  StronglySorted (fun a b => ordered order (key a) (key b))
    (Js.sort (fun a b => Js.compare_keys order (key a) (key b)) l).
Proof.
  intros Htr. apply Sorted_StronglySorted; [exact Htr|].
  pose proof (sort_Sorted (fun a b => Js.compare_keys order (key a) (key b)) l
                (fun a b => compare_keys_total order (key a) (key b))) as Hs.
  induction Hs as [|x l' Hs IH Hhd]; constructor; [assumption|].
  destruct Hhd; constructor. now apply compare_keys_ordered.
Qed.

(** ** Paging, on the pages and on the server *)









(** Both admin tables come out in the order of the chosen column: going
    down an ascending table no row has a key smaller than a row above it,
    and going down a descending one none has a larger key. *)
Theorem admin_tables_sorted users term roleFilter ufield shown sterm sfield order :
  StronglySorted
    (fun a b => ordered order (UserManagement.field ufield a)
                              (UserManagement.field ufield b))
    (UserManagement.filteredUsers users term roleFilter ufield order)
  /\ StronglySorted
       (fun a b => ordered order (StoreManagement.field sfield a)
                                 (StoreManagement.field sfield b))
       (StoreManagement.filteredStores shown sterm sfield order).
Proof.
  split.
  - unfold UserManagement.filteredUsers. apply sort_by_key_sorted.
    intros a b c. destruct ufield; simpl;
      first [apply ordered_trans_str | apply ordered_trans_num].
  - unfold StoreManagement.filteredStores. apply sort_by_key_sorted.
    intros a b c. destruct sfield; simpl;
      first [apply ordered_trans_str | apply ordered_trans_num].
Qed.

Lemma StronglySorted_map {A B} (f : A -> B) (R : B -> B -> Prop) (l : list A) :
  StronglySorted (fun a b => R (f a) (f b)) l -> StronglySorted R (map f l).
Proof.
  induction 1 as [|x l Hs IH Hall]; simpl; constructor; [exact IH|].
  rewrite Forall_map. exact Hall.
Qed.

Lemma StronglySorted_weaken {A} (R S : A -> A -> Prop) (l : list A) :
  (forall a b, R a b -> S a b) -> StronglySorted R l -> StronglySorted S l.
Proof.
  intros Himp. induction 1 as [|x l Hs IH Hall]; constructor; [exact IH|].
  eapply Forall_impl; [|exact Hall]. intros a. apply Himp.
Qed.

Lemma newest_first_key (ta tb : Z) :
  ordered Js.desc (Js.KNum (inject_Z ta)) (Js.KNum (inject_Z tb)) <-> tb <= ta.
Proof.
  simpl. rewrite negb_false_iff, Qle_bool_iff, <- Zle_Qle. tauto.
Qed.

(** Asked without a search term and without [sortField] and [sortOrder],
    both admin listings of the server come newest first: no entry was
    created later than one listed above it. *)
Theorem admin_listings_newest_first `{Externals} req db me :
  authMiddleware req = inr me -> payload_role me = admin ->
  no_search req ->
  query_string "sortField" (query req) = None ->
  query_string "sortOrder" (query req) = None ->
  (exists listed,
     admin_listUsers req db = Respond 200 (UsersBody listed)
     /\ StronglySorted (fun a b => user_createdAt b <= user_createdAt a) listed)
  /\ (exists listed,
        admin_listStores req db = Respond 200 (StoresBody listed)
        /\ StronglySorted (fun a b => store_createdAt (sj_store b)
                                      <= store_createdAt (sj_store a)) listed).
Proof.
  intros Ha Hr Hq Hf Ho. unfold admin_listUsers, admin_listStores.
  rewrite Ha, Hr, Hf, Ho. simpl.
  assert (Hplain : search_refused (query_string "q" (query req)) = false)
    by (destruct Hq as [-> | ->]; reflexivity).
  rewrite Hplain. split; eexists; (split; [reflexivity|]).
  - apply StronglySorted_map with (f := row_user)
      (R := fun a b => user_createdAt b <= user_createdAt a).
    unfold orderBy.
    eapply StronglySorted_weaken;
      [|apply (sort_by_key_sorted
                 (fun r => Js.KNum (inject_Z (user_createdAt (row_user r)))) Js.desc)].
    + intros a b Hab. now apply newest_first_key.
    + intros a b c. apply ordered_trans_num.
  - match goal with
    | |- StronglySorted _ (map ?g _) =>
      apply StronglySorted_map with (f := g)
        (R := fun a b => store_createdAt (sj_store b) <= store_createdAt (sj_store a))
    end.
    simpl. unfold orderBy.
    eapply StronglySorted_weaken;
      [|apply (sort_by_key_sorted
                 (fun s => Js.KNum (inject_Z (store_createdAt s))) Js.desc)].
    + intros a b Hab. now apply newest_first_key.
    + intros a b c. apply ordered_trans_num.
Qed.

Lemma admin_listings_newest_first_witness :
  exists listed,
    admin_listUsers (DemoAuth.by_admin "t-admin" []) Demo.db
    = Respond 200 (UsersBody listed)
    /\ StronglySorted (fun a b => user_createdAt b <= user_createdAt a) listed.
Proof.
  refine (proj1 (admin_listings_newest_first (DemoAuth.by_admin "t-admin" []) Demo.db
                   (mkPayload "1" admin) _ _ _ _ _)); try reflexivity.
  left. reflexivity.
Defined.

(** ** Averages and counts on the dashboards *)

Lemma sum_between (l : list Z) (lo hi : Z) :
  Forall (fun x => lo <= x <= hi) l ->
  lo * Z.of_nat (List.length l) <= fold_right Z.add 0 l <= hi * Z.of_nat (List.length l).
Proof.
  induction 1 as [|x l Hx Hall IH]; simpl List.length; simpl fold_right; [lia|].
  rewrite Nat2Z.inj_succ. lia.
Qed.

Lemma exact_sum_each (l : list Z) (v : Z) :
  exact_sum l -> In v l -> Z.abs v < 2 ^ 53.
Proof.
  unfold exact_sum. induction l as [|x l IH]; simpl; [tauto|].
  pose proof (exact_sum_nonneg l). intros Hs [->|Hin]; [lia|apply IH; [lia|exact Hin]].
Qed.

(** The mean of integers between two bounds lies between them. *)
Lemma mean_between (l : list Z) (lo hi : Z) :
  l <> [] -> Forall (fun x => lo <= x <= hi) l ->
  (inject_Z lo <= mean l <= inject_Z hi)%Q.
Proof.
  intros Hne Hb. apply sum_between in Hb. unfold mean.
  assert (Hn : 0 < Z.of_nat (List.length l)) by (destruct l; [congruence|simpl; lia]).
  split; [apply Qle_int_div|apply Qle_div_int]; lia.
Qed.

(** The average of a store that has ratings lies between the smallest and
    the largest of them: with ratings from 1 to 5 it is between 1 and 5.
    The ratings are taken to add up without rounding. *)
Theorem average_between held storeId lo hi :
  filter (fun r => String.eqb (rating_storeId r) storeId) held <> [] ->
  (forall r, In r held -> rating_storeId r = storeId -> lo <= rating_value r <= hi) ->
  exact_sum (values_of storeId held) ->
  (inject_Z lo <= DataContext.getStoreAverageRating held storeId <= inject_Z hi)%Q.
Proof.
  intros Hne Hall Hs.
  assert (Hvs : values_of storeId held <> []).
  { unfold values_of. destruct (filter _ held); [congruence|discriminate]. }
  rewrite (client_average held storeId Hvs Hs).
  set (top := 2 ^ 53 - 1).
  assert (Hb : Forall (fun x => Z.max lo (- top) <= x <= Z.min hi top)
                      (values_of storeId held)).
  { apply Forall_forall. intros v Hin.
    pose proof (exact_sum_each _ _ Hs Hin) as Hv.
    unfold values_of in Hin. apply in_map_iff in Hin as (r & <- & Hin).
    apply filter_In in Hin as [Hin Hst]. apply String.eqb_eq in Hst.
    specialize (Hall r Hin Hst). unfold top. lia. }
  assert (Hsome : exists v, Z.max lo (- top) <= v <= Z.min hi top).
  { destruct (values_of storeId held) as [|v vs]; [congruence|].
    exists v. now inversion Hb. }
  destruct (mean_between _ _ _ Hvs Hb) as [Hlo Hhi].
  split.
  - apply Qle_trans with (inject_Z (Z.max lo (- top))); [rewrite <- Zle_Qle; lia|].
    apply double_ge_int; [|exact Hlo]. destruct Hsome as [v Hv]. unfold top in *. lia.
  - apply Qle_trans with (inject_Z (Z.min hi top)); [|rewrite <- Zle_Qle; lia].
    apply double_le_int; [|exact Hhi]. destruct Hsome as [v Hv]. unfold top in *. lia.
Qed.

Lemma average_between_witness :
  (inject_Z 1 <= DataContext.getStoreAverageRating (DataContext.initialRatings 0) "1"
   <= inject_Z 5)%Q.
Proof.
  apply (average_between (DataContext.initialRatings 0) "1" 1 5).
  - simpl. discriminate.
  - intros r [<-|[<-|[<-|[]]]] _; simpl; lia.
  - vm_compute. reflexivity.
Defined.

(** Each card of the owner dashboard is consistent: the store is one of
    the owner's, the ratings are those of the store, the count is their
    number, and the average is 0 when there is none and otherwise the
    mean of the listed values, rounded once, to a double (for values that
    add up without rounding). *)
Theorem owner_dashboard_cards stores users held owner d :
  In d (OwnerDashboard.storeData (OwnerDashboard.ownerStores stores (Some owner))
                                 held users) ->
  let listed := map (fun p => rating_value (fst p)) (OwnerDashboard.ratings d) in
  In (OwnerDashboard.store d) stores
  /\ store_ownerId (OwnerDashboard.store d) = user_id owner
  /\ map fst (OwnerDashboard.ratings d)
     = filter (fun r => String.eqb (rating_storeId r) (store_id (OwnerDashboard.store d)))
              held
  /\ OwnerDashboard.totalRatings d = List.length (OwnerDashboard.ratings d)
  /\ (OwnerDashboard.totalRatings d = 0%nat -> OwnerDashboard.averageRating d = 0%Q)
  /\ (OwnerDashboard.totalRatings d <> 0%nat -> exact_sum listed ->
      OwnerDashboard.averageRating d = Js.double (mean listed)
      /\ (Qabs (OwnerDashboard.averageRating d - mean listed) * inject_Z (2 ^ 53)
          <= Qabs (mean listed))%Q).
Proof.
  unfold OwnerDashboard.storeData, OwnerDashboard.ownerStores, DataContext.getStoresByOwner.
  intros Hin. apply in_map_iff in Hin as (s & <- & Hin).
  apply filter_In in Hin as [Hin Ho]. apply String.eqb_eq in Ho. simpl.
  unfold OwnerDashboard.getStoreRatings. rewrite !map_map, length_map. simpl.
  rewrite map_id.
  split; [exact Hin|]. split; [exact Ho|]. split; [reflexivity|]. split; [reflexivity|].
  split.
  - intros E. unfold DataContext.getStoreAverageRating. now rewrite E.
  - intros Hne Hs. fold (values_of (store_id s) held) in *.
    assert (Hvs : values_of (store_id s) held <> []).
    { unfold values_of. destruct (filter _ held); [now contradiction Hne|discriminate]. }
    rewrite (client_average held (store_id s) Hvs Hs).
    split; [reflexivity|apply double_error].
Qed.

Lemma owner_dashboard_cards_witness :
  OwnerDashboard.averageRating
    (OwnerDashboard.mkStoreData
       (mkStore "1" "Premium Electronics Store"
                "100 Tech Boulevard, Digital City, DC 10001" "2" 0)
       (OwnerDashboard.getStoreRatings (DataContext.initialRatings 0)
                                       (DataContext.initialUsers 0) "1")
       (DataContext.getStoreAverageRating (DataContext.initialRatings 0) "1") 2)
  = Js.double (mean [4; 5]).
Proof.
  refine (proj1 (proj2 (proj2 (proj2 (proj2 (proj2
    (owner_dashboard_cards (DataContext.initialStores 0) (DataContext.initialUsers 0)
       (DataContext.initialRatings 0)
       (mkUser "2" "Store Owner Demo Account" "owner@storerating.com"
               "456 Business Avenue, Commerce Town, CT 67890" store_owner 0)
       (OwnerDashboard.mkStoreData
          (mkStore "1" "Premium Electronics Store"
                   "100 Tech Boulevard, Digital City, DC 10001" "2" 0)
          (OwnerDashboard.getStoreRatings (DataContext.initialRatings 0)
                                          (DataContext.initialUsers 0) "1")
          (DataContext.getStoreAverageRating (DataContext.initialRatings 0) "1") 2)
       _))))) _ _)).
  - simpl. auto.
  - simpl. discriminate.
  - vm_compute. reflexivity.
Defined.

Lemma slice_last_five {A} (l : list A) :
  Js.slice l (-5) (Z.of_nat (List.length l)) = skipn (List.length l - 5) l.
Proof.
  unfold Js.slice, Js.clamp_index.
  destruct (Z.ltb_spec (Z.of_nat (List.length l)) 0) as [?|_]; [lia|].
  change (-5 <? 0) with true. cbv iota.
  replace (Z.to_nat (Z.max (Z.of_nat (List.length l) + -5) 0))
    with (List.length l - 5)%nat by lia.
  rewrite Z.min_id, Nat2Z.id.
  apply firstn_all2. rewrite length_skipn. lia.
Qed.

(** The two "recent" lists of the admin dashboard hold the last five
    entries (all of them when there are fewer), the latest first. *)
Theorem recent_is_last_five {A} (l : list A) :
  List.length (AdminDashboard.recent l) = Nat.min 5 (List.length l)
  /\ forall i, (i < Nat.min 5 (List.length l))%nat ->
       nth_error (AdminDashboard.recent l) i = nth_error l (List.length l - 1 - i).
Proof.
  unfold AdminDashboard.recent. rewrite slice_last_five. split.
  - rewrite length_rev, length_skipn. lia.
  - intros i Hi. rewrite nth_error_rev, length_skipn.
    destruct (Nat.ltb_spec i (List.length l - (List.length l - 5))) as [_|?]; [|lia].
    rewrite nth_error_skipn. f_equal. lia.
Qed.

Lemma recent_is_last_five_witness :
  map user_id (AdminDashboard.recentUsers
                 (DataContext.initialUsers 0
                  ++ [mkUser "5" "" "" "" normal_user 1; mkUser "6" "" "" "" normal_user 2]))
  = ["6"; "5"; "4"; "3"; "2"]
  /\ nth_error (AdminDashboard.recentUsers (DataContext.initialUsers 0)) 0
     = nth_error (DataContext.initialUsers 0) 3.
Proof.
  split; [reflexivity|].
  apply (proj2 (recent_is_last_five (DataContext.initialUsers 0)) 0%nat).
  simpl. lia.
Defined.

(** ** The stars *)

(** A click on a star of the interactive widget reports an integer from 1
    to the number of stars; with the five stars of the default the server's
    schema accepts it and the column takes it as it is. *)
Theorem star_click_is_valid_rating maxRating index v :
  In index (StarRating.stars maxRating) ->
  StarRating.handleClick true index = Some v ->
  1 <= v <= Z.of_nat maxRating
  /\ as_Int (inject_Z v) = Some v
  /\ ((maxRating <= 5)%nat ->
      ratingSchema_safeParse [("rating", Js.JNumber (inject_Z v))] = Some (inject_Z v)).
Proof.
  unfold StarRating.stars, StarRating.handleClick. rewrite in_seq.
  intros Hin E. injection E as <-. split; [lia|]. split; [apply as_Int_inject_Z|].
  intros Hmax. apply safeParse_integer; [reflexivity|lia].
Qed.

Lemma star_click_is_valid_rating_witness :
  ratingSchema_safeParse [("rating", Js.JNumber (inject_Z 5))] = Some (inject_Z 5).
Proof.
  destruct (star_click_is_valid_rating 5 4 5) as (_ & _ & Hok).
  - simpl. tauto.
  - reflexivity.
  - apply Hok. lia.
Defined.

(** The widget fills as many stars as the rating rounded to the nearest
    integer (halves upwards), none below 0 and all above the number of
    stars. *)
Theorem filled_stars_count rating maxRating :
  List.length (filter (StarRating.filled rating) (StarRating.stars maxRating))
  = Nat.min (Z.to_nat (StarRating.round rating)) maxRating.
Proof.
  unfold StarRating.stars, StarRating.filled.
  induction maxRating as [|n IH]; [simpl; lia|].
  rewrite seq_S, filter_app, length_app, IH. simpl.
  destruct (Z.ltb_spec (Z.of_nat n) (StarRating.round rating)); simpl; lia.
Qed.

(** ** The mock session *)

Lemma set_password_absent id pwd (l : list AuthContext.Account) :
  (forall a, In a l -> user_id (AuthContext.account a) <> id) ->
  AuthContext.set_password id pwd l = l.
Proof.
  induction l as [|a l IH]; simpl; intros Hall; [reflexivity|].
  destruct (String.eqb_spec (user_id (AuthContext.account a)) id) as [E|_].
  - exfalso. apply (Hall a); auto.
  - f_equal. apply IH. intros b Hin. apply Hall. now right.
Qed.

(** Signing up with an email no mock account has succeeds, signs the new
    user in as a normal user, and the same email and password then log in
    as that user; the emails of the accounts stay distinct. *)
Theorem mock_signup_then_login now name email address pwd st :
  find (fun a => String.eqb (user_email (AuthContext.account a)) email)
       (AuthContext.accounts st) = None ->
  exists newUser st',
    AuthContext.signup now name email address pwd st = (AuthContext.Success, st')
    /\ AuthContext.user st' = Some newUser
    /\ user_role newUser = normal_user /\ user_email newUser = email
    /\ AuthContext.login email pwd (AuthContext.logout st')
       = (AuthContext.Success,
          AuthContext.mkState (AuthContext.accounts st') (Some newUser) (Some newUser))
    /\ (mock_emails_unique (AuthContext.accounts st) ->
        mock_emails_unique (AuthContext.accounts st')).
Proof.
  intros F. unfold AuthContext.signup. rewrite F.
  eexists. eexists. split; [reflexivity|]. simpl.
  split; [reflexivity|]. split; [reflexivity|]. split; [reflexivity|]. split.
  - unfold AuthContext.login. simpl. rewrite find_snoc.
    + reflexivity.
    + apply find_none_existsb, existsb_forall. intros a Hin.
      apply find_none_existsb in F. rewrite existsb_forall in F.
      now rewrite (F a Hin).
    + simpl. now rewrite !String.eqb_refl.
  - unfold mock_emails_unique. rewrite map_app. simpl. intros Hnd.
    apply NoDup_snoc; [exact Hnd|].
    apply find_none_existsb in F.
    now apply (existsb_not_In _ String.eqb _ _ String.eqb_eq).
Qed.

Lemma mock_signup_then_login_witness :
  exists newUser st',
    AuthContext.signup 9 "A Perfectly Ordinary Name" "new@example.com" "1 Main Street"
                       "Secret#12"
                       (AuthContext.mkState (AuthContext.mockUsers 0) None None)
    = (AuthContext.Success, st')
    /\ AuthContext.user st' = Some newUser
    /\ user_role newUser = normal_user /\ user_email newUser = "new@example.com"
    /\ AuthContext.login "new@example.com" "Secret#12" (AuthContext.logout st')
       = (AuthContext.Success,
          AuthContext.mkState (AuthContext.accounts st') (Some newUser) (Some newUser))
    /\ (mock_emails_unique (AuthContext.mockUsers 0) ->
        mock_emails_unique (AuthContext.accounts st')).
Proof.
  apply (mock_signup_then_login 9 "A Perfectly Ordinary Name" "new@example.com"
           "1 Main Street" "Secret#12"
           (AuthContext.mkState (AuthContext.mockUsers 0) None None)).
  reflexivity.
Defined.

Lemma mock_login_after_change (l : list AuthContext.Account) u old new p :
  mock_emails_unique l -> NoDup (map (fun a => user_id (AuthContext.account a)) l) ->
  In (AuthContext.mkAccount u old) l ->
  find (fun a => String.eqb (user_email (AuthContext.account a)) (user_email u)
                 && String.eqb (AuthContext.password a) p)
       (AuthContext.set_password (user_id u) new l)
  = if String.eqb new p then Some (AuthContext.mkAccount u new) else None.
Proof.
  unfold mock_emails_unique.
  induction l as [|a l IH]; simpl; [tauto|]. intros Hem Hid Hin.
  inversion Hem as [|? ? Hea Hem']; inversion Hid as [|? ? Hia Hid']; subst.
  destruct Hin as [->|Hin]; simpl.
  - rewrite !String.eqb_refl. simpl. rewrite String.eqb_refl. simpl.
    destruct (String.eqb new p); [reflexivity|].
    apply find_none_existsb, existsb_forall. intros b Hb.
    destruct (String.eqb_spec (user_email (AuthContext.account b)) (user_email u)) as [E|];
      [|reflexivity].
    exfalso. apply Hea. simpl. rewrite <- E.
    now apply in_map with (f := fun a => user_email (AuthContext.account a)).
  - assert (Hne_id : user_id (AuthContext.account a) <> user_id u).
    { intros E. apply Hia. rewrite E.
      now apply in_map with (f := fun a => user_id (AuthContext.account a))
                            (x := AuthContext.mkAccount u old). }
    assert (Hne_em : user_email (AuthContext.account a) <> user_email u).
    { intros E. apply Hea. rewrite E.
      now apply in_map with (f := fun a => user_email (AuthContext.account a))
                            (x := AuthContext.mkAccount u old). }
    rewrite (proj2 (String.eqb_neq _ _) Hne_id). simpl.
    rewrite (proj2 (String.eqb_neq _ _) Hne_em). simpl. now apply IH.
Qed.

(** After a signed-in user changes the password, the email logs in with
    the new password and no longer with any other, provided the emails
    and the ids of the accounts are distinct and the user is one of them. *)
Theorem mock_password_change now_pwd st u old :
  AuthContext.user st = Some u ->
  In (AuthContext.mkAccount u old) (AuthContext.accounts st) ->
  mock_emails_unique (AuthContext.accounts st) ->
  NoDup (map (fun a => user_id (AuthContext.account a)) (AuthContext.accounts st)) ->
  exists st',
    AuthContext.updatePassword now_pwd st = (AuthContext.Success, st')
    /\ fst (AuthContext.login (user_email u) now_pwd st') = AuthContext.Success
    /\ AuthContext.user (snd (AuthContext.login (user_email u) now_pwd st')) = Some u
    /\ forall p, p <> now_pwd ->
         AuthContext.login (user_email u) p st'
         = (AuthContext.Failure "Invalid email or password", st').
Proof.
  intros Hu Hin Hem Hid. unfold AuthContext.updatePassword. rewrite Hu.
  eexists. split; [reflexivity|]. unfold AuthContext.login. simpl.
  split; [|split].
  - rewrite (mock_login_after_change _ u old now_pwd now_pwd Hem Hid Hin).
    now rewrite String.eqb_refl.
  - rewrite (mock_login_after_change _ u old now_pwd now_pwd Hem Hid Hin).
    now rewrite String.eqb_refl.
  - intros p Hp.
    rewrite (mock_login_after_change _ u old now_pwd p Hem Hid Hin).
    rewrite (proj2 (String.eqb_neq now_pwd p)) by congruence. reflexivity.
Qed.

Lemma mock_password_change_witness :
  exists st',
    AuthContext.updatePassword "Changed#1"
      (snd (AuthContext.login "user@storerating.com" "User@1234"
              (AuthContext.mkState (AuthContext.mockUsers 0) None None)))
    = (AuthContext.Success, st')
    /\ fst (AuthContext.login "user@storerating.com" "Changed#1" st')
       = AuthContext.Success.
Proof.
  destruct (mock_password_change "Changed#1"
              (snd (AuthContext.login "user@storerating.com" "User@1234"
                      (AuthContext.mkState (AuthContext.mockUsers 0) None None)))
              (mkUser "3" "Normal User Demo Account" "user@storerating.com"
                      "789 Customer Lane, Shopville, SV 11223" normal_user 0)
              "User@1234") as (st' & E & Hlogin & _).
  - reflexivity.
  - simpl. auto.
  - unfold mock_emails_unique. simpl.
    repeat (constructor; [simpl; intuition discriminate|]). constructor.
  - simpl. repeat (constructor; [simpl; intuition discriminate|]). constructor.
  - exists st'. split; assumption.
Defined.

(** After a page load the session comes back from storage while the
    accounts are the three mock ones again.  For a restored user who is
    none of them, changing the password reports success and changes
    nothing, and no password logs the email in. *)
Theorem mock_session_outlives_account t0 st u pwd :
  AuthContext.currentUser st = Some u ->
  (forall a, In a (AuthContext.mockUsers t0) ->
             user_id (AuthContext.account a) <> user_id u
             /\ user_email (AuthContext.account a) <> user_email u) ->
  AuthContext.user (AuthContext.load t0 st) = Some u
  /\ AuthContext.updatePassword pwd (AuthContext.load t0 st)
     = (AuthContext.Success, AuthContext.load t0 st)
  /\ AuthContext.login (user_email u) pwd (AuthContext.load t0 st)
     = (AuthContext.Failure "Invalid email or password", AuthContext.load t0 st).
Proof.
  intros Hc Hnone. unfold AuthContext.load. rewrite Hc. split; [reflexivity|]. split.
  - unfold AuthContext.updatePassword. cbn [AuthContext.user AuthContext.accounts
      AuthContext.currentUser].
    rewrite set_password_absent; [reflexivity|].
    intros a Hin. now apply Hnone.
  - unfold AuthContext.login. cbn [AuthContext.accounts].
    assert (F : find (fun a => String.eqb (user_email (AuthContext.account a)) (user_email u)
                               && String.eqb (AuthContext.password a) pwd)
                     (AuthContext.mockUsers t0) = None).
    { apply find_none_existsb, existsb_forall. intros a Hin.
      destruct (Hnone a Hin) as [_ Hne].
      now rewrite (proj2 (String.eqb_neq _ _) Hne). }
    rewrite F. reflexivity.
Qed.

Lemma mock_session_outlives_account_witness :
  AuthContext.updatePassword "Changed#1"
    (AuthContext.load 1
       (snd (AuthContext.signup 9 "A Perfectly Ordinary Name" "new@example.com"
               "1 Main Street" "Secret#12"
               (AuthContext.mkState (AuthContext.mockUsers 0) None None))))
  = (AuthContext.Success,
     AuthContext.load 1
       (snd (AuthContext.signup 9 "A Perfectly Ordinary Name" "new@example.com"
               "1 Main Street" "Secret#12"
               (AuthContext.mkState (AuthContext.mockUsers 0) None None)))).
Proof.
  refine (proj1 (proj2 (mock_session_outlives_account 1
    (snd (AuthContext.signup 9 "A Perfectly Ordinary Name" "new@example.com"
            "1 Main Street" "Secret#12"
            (AuthContext.mkState (AuthContext.mockUsers 0) None None)))
    (mkUser "4" "A Perfectly Ordinary Name" "new@example.com" "1 Main Street"
            normal_user 9)
    "Changed#1" _ _))).
  - reflexivity.
  - intros a [<-|[<-|[<-|[]]]]; split; discriminate.
Defined.

(** ** The schema of a rating *)

(** A request with a valid token whose [rating] is missing, is not a
    number, or is a number below 1 or above 5 is answered 400 [invalid]
    before the database is read; nothing is stored. *)
Theorem rating_outside_schema_refused `{Externals} now req db me :
  authMiddleware req = inr me ->
  (forall q, Js.prop "rating" (body req) = Js.JNumber q -> (q < 1 \/ 5 < q)%Q) ->
  submitRating now req db = (invalid, db).
Proof.
  intros Ha Hout. apply (submitRating_invalid now req db me Ha).
  destruct (Js.prop "rating" (body req)) as [| |b|q|s|] eqn:E;
    try (unfold ratingSchema_safeParse; rewrite E; reflexivity).
  apply (safeParse_out_of_range _ q E). now apply Hout.
Qed.

Lemma rating_outside_schema_refused_witness :
  submitRating 7 (Demo.rate "t-user" "1" (11 # 2)) Demo.db = (invalid, Demo.db)
  /\ submitRating 7 (mkRequest (Some "Bearer t-user") "1" [] [("rating", Js.JString "5")])
                  Demo.db
     = (invalid, Demo.db).
Proof.
  split.
  - apply (rating_outside_schema_refused 7 (Demo.rate "t-user" "1" (11 # 2)) Demo.db
             (mkPayload "3" normal_user)); [reflexivity|].
    intros q E. injection E as <-. right. reflexivity.
  - apply (rating_outside_schema_refused 7
             (mkRequest (Some "Bearer t-user") "1" [] [("rating", Js.JString "5")])
             Demo.db (mkPayload "3" normal_user)); [reflexivity|].
    intros q E. discriminate.
Defined.
